(** * Compress-It: the media compression engine, embedded and verified

    The development follows the repository file by file:

    - [Js]        the few JavaScript primitives the engine relies on;
    - [Estimator] the bitrate computation shared by the browser and the
                  desktop video paths;
    - [Double]    the same arithmetic on binary64 numbers;
    - [Service]   [server/services/compressionService.js] (image profiles);
    - [Desktop]   [desktop/main.js] (IPC handlers of the Electron main process);
    - [Renderer]  the desktop renderer's [compressVideo];
    - [Web]       the browser video module ([startVideoCompression],
                  [cancelVideoCompression]) running on FFmpeg.wasm;
    - [Scenario]  the concrete requests the examples are run on;
    - [Images]    [compressImage] of the service;
    - [Routes]    [server/routes/compression.js];
    - [VideoPage] the rest of the browser video module (file selection,
                  progress, download);
    - [Protocol]  the engine calls of a browser run, by kind.

    Numbers.  JavaScript numbers are modelled by exact rationals ([Q]) and,
    where the program only ever holds integers (byte sizes, the result of
    [parseInt], the result of [Math.floor]), by [Z].  The model covers finite
    quantities and positive durations; infinities are outside it, and NaN
    appears only where a definition names it (as [None]).
    Module [Double] evaluates the same expressions in binary64 arithmetic and
    is used to check that the rounding of doubles does not change the results
    at the inputs of the scenarios. *)

From Stdlib Require Import ZArith QArith Qround Ascii String List Lia.
From Stdlib Require Import Uint63 PrimFloat SpecFloat FloatOps.
From stdpp Require Import base option gmap strings pretty.
Import ListNotations.

Local Open Scope string_scope.
Local Open Scope Z_scope.

(* ===================================================================== *)
(** * JavaScript primitives *)
(* ===================================================================== *)

Module Js.

(** [haystack.includes(needle)] *)
Definition includes (needle haystack : string) : bool :=
  match String.index 0 needle haystack with
  | Some _ => true
  | None => false
  end.

(** [`${n}`] and [n.toString()] for an integer [n]. *)
Definition toString (n : Z) : string := pretty n.

(** [Math.floor], [Math.max], [Math.min] *)
Definition floor (x : Q) : Z := Qfloor x.
Definition max (a b : Z) : Z := Z.max a b.
Definition min (a b : Z) : Z := Z.min a b.

(** [x > y] and [x <= y] on numbers. *)
Definition gt (x y : Q) : bool := negb (Qle_bool x y).
Definition le (x y : Q) : bool := Qle_bool x y.

(** [a || b] on strings: the empty string is falsy. *)
Definition or_string (a : option string) (b : string) : string :=
  match a with
  | Some s => if String.eqb s "" then b else s
  | None => b
  end.

(** [a || b] on numbers obtained from [parseInt]: [NaN] ([None]) and [0]
    are falsy. *)
Definition or_number (a : option Z) (b : Z) : Z :=
  match a with
  | Some n => if Z.eqb n 0 then b else n
  | None => b
  end.

(** Lookup in an object literal used as a table. *)
Fixpoint lookup {V : Type} (table : list (string * V)) (key : string) : option V :=
  match table with
  | [] => None
  | (k, v) :: rest => if String.eqb k key then Some v else lookup rest key
  end.

(** How an [async] body or a handler completes. *)
Inductive Completion (A : Type) : Type :=
| Returns (a : A)
| Throws (message : string).
Arguments Returns {A} a.
Arguments Throws {A} message.

End Js.

(* ===================================================================== *)
(** * The bitrate estimate (browser module and desktop main process)

    Both video paths compute
<<
      const targetSizeBytes = targetSizeMB * 1024 * 1024;
      const audioBitrate = 128; // kbps
      const targetTotalBitrate = (targetSizeBytes * 8) / duration / 1000;
      let videoBitrate = Math.max(100, Math.floor(targetTotalBitrate - audioBitrate));
>> *)
(* ===================================================================== *)

Module Estimator.

Definition targetSizeBytes (targetSizeMB : Z) : Z := targetSizeMB * 1024 * 1024.

Definition audioBitrate : Z := 128.

Definition targetTotalBitrate (targetBytes : Z) (duration : Q) : Q :=
  (inject_Z (targetBytes * 8) / duration / inject_Z 1000)%Q.

(** The estimate with the audio budget as a parameter; the program always
    passes [audioBitrate]. *)
Definition estimate (duration : Q) (targetBytes : Z) (audio : Q) : Z :=
  Js.max 100 (Js.floor (targetTotalBitrate targetBytes duration - audio)%Q).

Definition videoBitrate (targetSizeMB : Z) (duration : Q) : Z :=
  estimate duration (targetSizeBytes targetSizeMB) (inject_Z audioBitrate).

(** Second pass of the browser module:
<<
    const ratio = targetSizeBytes / videoState.compressedBlob.size;
    videoBitrate = Math.max(50, Math.floor(videoBitrate * ratio * 0.9));
>> *)
Definition ratio (targetBytes firstAttemptBytes : Z) : Q :=
  (inject_Z targetBytes / inject_Z firstAttemptBytes)%Q.

Definition secondPassBitrate (firstPassBitrate targetBytes firstAttemptBytes : Z) : Z :=
  Js.max 50
    (Js.floor (inject_Z firstPassBitrate * ratio targetBytes firstAttemptBytes * (9 # 10))%Q).

(** [size > targetSizeBytes * 1.05] *)
Definition overshoots (size targetBytes : Z) : bool :=
  Js.gt (inject_Z size) (inject_Z targetBytes * (105 # 100))%Q.

End Estimator.

(* ===================================================================== *)
(** * The same expressions in binary64 arithmetic *)
(* ===================================================================== *)

Module Double.

#[local] Set Warnings "-inexact-float".

(** The JavaScript number holding the integer [n] (exact below 2^53). *)
Definition ofZ (n : Z) : float := PrimFloat.of_uint63 (Uint63.of_Z n).

(** [Math.floor] of a finite double; [None] for infinities and NaN. *)
Definition floor (x : float) : option Z :=
  match Prim2SF x with
  | S754_zero _ => Some 0
  | S754_finite negative m e =>
      Some (Z.shiftl (if negative then Zneg m else Zpos m) e)
  | _ => None
  end.

Definition videoBitrate (targetSizeMB : Z) (duration : float) : option Z :=
  let targetSizeBytes := (ofZ targetSizeMB * 1024 * 1024)%float in
  let audioBitrate := 128%float in
  let targetTotalBitrate := (targetSizeBytes * 8 / duration / 1000)%float in
  option_map (Z.max 100) (floor (targetTotalBitrate - audioBitrate)%float).

Definition secondPassBitrate (videoBitrate targetSizeBytes size : Z) : option Z :=
  let ratio := (ofZ targetSizeBytes / ofZ size)%float in
  option_map (Z.max 50) (floor (ofZ videoBitrate * ratio * 0.9)%float).

Definition overshoots (size targetSizeBytes : Z) : bool :=
  (ofZ targetSizeBytes * 1.05 <? ofZ size)%float.

Definition colors (quality : Z) : option Z :=
  option_map (Z.max 16) (floor (256 * (ofZ quality / 100))%float).

End Double.

(* ===================================================================== *)
(** * server/services/compressionService.js *)
(* ===================================================================== *)

Module Service.

(** The option objects handed to sharp, one constructor per shape the
    function builds. *)
Inductive CompressionOptions : Type :=
| JpegOptions (quality : Z) (mozjpeg : bool) (chromaSubsampling : string)
| PngOptions (compressionLevel : Z) (palette : bool) (quality : Z) (effort : Z) (colors : Z)
| WebpOptions (quality : Z) (effort : Z) (smartSubsample : bool) (nearLossless : bool)
| GifOptions (colors : Z) (effort : Z)
| QualityOnly (quality : Z).

Definition mimeToFormat : list (string * string) :=
  [ ("image/jpeg", "jpeg"); ("image/png", "png");
    ("image/gif", "gif"); ("image/webp", "webp") ].

(** [getOutputFormat(mimetype, outputFormat)]; [None] is [undefined]. *)
Definition getOutputFormat (mimetype : string) (outputFormat : option string) : string :=
  match outputFormat with
  | Some f =>
      if negb (String.eqb f "") && negb (String.eqb f "original") then f
      else Js.or_string (Js.lookup mimeToFormat mimetype) "jpeg"
  | None => Js.or_string (Js.lookup mimeToFormat mimetype) "jpeg"
  end.

Definition extensions : list (string * string) :=
  [ ("jpeg", ".jpg"); ("png", ".png"); ("gif", ".gif"); ("webp", ".webp") ].

Definition getExtension (format : string) : string :=
  Js.or_string (Js.lookup extensions format) ".jpg".

(** [getCompressionOptions(format, quality)].  The local [baseSettings]
    copy of [formatSettings[format]] is never read and is left out. *)
Definition getCompressionOptions (format : string) (quality : Z) : CompressionOptions :=
  if String.eqb format "jpeg" then
    JpegOptions quality true (if 90 <? quality then "4:4:4" else "4:2:0")
  else if String.eqb format "png" then
    let colors := Js.max 16 (Js.floor (256 * (inject_Z quality / 100))%Q) in
    PngOptions 9 (quality <? 100) quality 10 colors
  else if String.eqb format "webp" then
    WebpOptions quality 6 true (95 <? quality)
  else if String.eqb format "gif" then
    let gifColors := Js.max 16 (Js.floor (256 * (inject_Z quality / 100))%Q) in
    GifOptions gifColors 10
  else
    QualityOnly quality.

(** The [colors] field of an option object, when it has one. *)
Definition colors (o : CompressionOptions) : option Z :=
  match o with
  | PngOptions _ _ _ _ c => Some c
  | GifOptions c _ => Some c
  | _ => None
  end.



End Service.

(* ===================================================================== *)
(** * desktop/main.js: the Electron main process *)
(* ===================================================================== *)

Module Desktop.

(** ** [compress-image]: format and encoder selection *)







(** ** [compress-video] *)

Record Options : Type := {
  targetSizeMB : Z;
  quality : option string;
  outputFormat : option string;
}.

(** What [ffprobe] reports in [metadata.format]. *)
Record Metadata : Type := {
  duration : Q;
  size : Z;
}.

Definition presetMap : list (string * (string * Z)) :=
  [ ("high", ("slow", 20)); ("medium", ("medium", 23)); ("low", ("fast", 28)) ].

(** The fluent-ffmpeg command, as the list of builder calls that matter to
    the encoder. *)
Record Command : Type := {
  input : string;
  videoCodec : string;
  addOption : list (string * string);
  audioCodec : string;
  audioBitrate : string;
  output : string;
  videoFilter : option string;
}.

Definition scaleFilter (opts : Options) (meta : Metadata) : option string :=
  let fileSizeMB := (inject_Z (size meta) / inject_Z (1024 * 1024))%Q in
  let compressionRatio := (inject_Z (targetSizeMB opts) / fileSizeMB)%Q in
  if Js.gt (15 # 100) compressionRatio then Some "scale=-2:480"
  else if Js.gt (35 # 100) compressionRatio then Some "scale=-2:720"
  else None.

Definition buildCommand (filePath outputPath : string) (opts : Options) (meta : Metadata)
  : Js.Completion Command :=
  let videoBitrate := Estimator.videoBitrate (targetSizeMB opts) (duration meta) in
  match Js.lookup presetMap (Js.or_string (quality opts) "medium") with
  | None => Js.Throws "TypeError: Cannot destructure property 'preset'"
  | Some (preset, crf) =>
      let k n := Js.toString n +:+ "k" in
      if match outputFormat opts with Some f => String.eqb f "webm" | None => false end
      then Js.Returns
        {| input := filePath;
           videoCodec := "libvpx-vp9";
           addOption := [ ("-crf", Js.toString crf); ("-b:v", k videoBitrate);
                          ("-deadline", "good"); ("-cpu-used", "4");
                          ("-row-mt", "1"); ("-threads", "0") ];
           audioCodec := "libopus";
           audioBitrate := k Estimator.audioBitrate;
           output := outputPath;
           videoFilter := scaleFilter opts meta |}
      else Js.Returns
        {| input := filePath;
           videoCodec := "libx264";
           addOption := [ ("-preset", preset); ("-crf", Js.toString crf);
                          ("-maxrate", k videoBitrate);
                          ("-bufsize", k (videoBitrate * 2));
                          ("-movflags", "+faststart"); ("-threads", "0") ];
           audioCodec := "aac";
           audioBitrate := k Estimator.audioBitrate;
           output := outputPath;
           videoFilter := scaleFilter opts meta |}
  end.

(** The value a [compress-video] invocation resolves with. *)
Inductive VideoResult : Type :=
| Success (outputPath : string) (originalSize compressedSize : Z)
| Cancelled
| Failed (error : string).

(** State of the main process: the [activeProcesses] map, the value the
    latest [compress-video] invocation for a file path has resolved with (no
    entry while its promise is pending), and the signals sent so far. *)
Record Main : Type := {
  activeProcesses : gmap string Command;
  settled : gmap string VideoResult;
  signals : list (string * string);
}.

Definition initial : Main :=
  {| activeProcesses := ∅; settled := ∅; signals := [] |}.

(** [resolve(r)]: only the first call settles the promise. *)
Definition resolve (filePath : string) (r : VideoResult) (st : Main) : Main :=
  match settled st !! filePath with
  | Some _ => st
  | None =>
      {| activeProcesses := activeProcesses st;
         settled := <[filePath := r]> (settled st);
         signals := signals st |}
  end.

Definition forget (filePath : string) (st : Main) : Main :=
  {| activeProcesses := delete filePath (activeProcesses st);
     settled := settled st;
     signals := signals st |}.

(** A new invocation comes with a fresh, pending promise. *)
Definition pending (filePath : string) (st : Main) : Main :=
  {| activeProcesses := activeProcesses st;
     settled := delete filePath (settled st);
     signals := signals st |}.

(** The handler, through its [ffprobe] callback: a probe failure resolves at
    once, otherwise the command is stored in [activeProcesses] and run.  A
    quality tier missing from [presetMap] throws inside the callback and the
    promise stays pending. *)
Definition compressVideo (filePath outputPath : string) (opts : Options)
    (probe : Js.Completion Metadata) (st : Main) : Main :=
  let st := pending filePath st in
  match probe with
  | Js.Throws message => resolve filePath (Failed message) st
  | Js.Returns meta =>
      match buildCommand filePath outputPath opts meta with
      | Js.Throws _ => st
      | Js.Returns command =>
          {| activeProcesses := <[filePath := command]> (activeProcesses st);
             settled := settled st;
             signals := signals st |}
      end
  end.

(** [.on("end", ...)]; [statSize] is [fs.statSync(outputPath).size]. *)
Definition onEnd (filePath outputPath : string) (originalSize statSize : Z)
    (st : Main) : Main :=
  resolve filePath (Success outputPath originalSize statSize) (forget filePath st).

(** The classification made by [.on("error", ...)]. *)
Definition errorResult (message : string) : VideoResult :=
  if Js.includes "SIGKILL" message || Js.includes "killed" message
  then Cancelled
  else Failed message.

Definition onError (filePath : string) (message : string) (st : Main) : Main :=
  resolve filePath (errorResult message) (forget filePath st).

(** [cancel-video]: the reply is [{ success }]. *)
Definition cancelVideo (filePath : string) (st : Main) : bool * Main :=
  match activeProcesses st !! filePath with
  | Some _ =>
      (true,
       {| activeProcesses := delete filePath (activeProcesses st);
          settled := settled st;
          signals := signals st ++ [(filePath, "SIGKILL")] |})
  | None => (false, st)
  end.

(** How the child process of a command ends, and the message of the error
    fluent-ffmpeg emits for it (the library is a dependency of the
    repository; the handler above only sees the message). *)
Inductive Termination : Type :=
| KilledBySignal (signal : string)
| ExitedWithCode (code : Z) (stderrTail : string).

Definition errorMessage (t : Termination) : string :=
  match t with
  | KilledBySignal signal => "ffmpeg was killed with signal " +:+ signal
  | ExitedWithCode code stderrTail =>
      "ffmpeg exited with code " +:+ Js.toString code +:+ ": " +:+ stderrTail
  end.

(** Events of the main process, in the order the event loop runs them. *)
Inductive Event : Type :=
| InvokeCompress (filePath outputPath : string) (opts : Options)
    (probe : Js.Completion Metadata)
| ProcessEnd (filePath outputPath : string) (originalSize statSize : Z)
| ProcessError (filePath : string) (t : Termination)
| InvokeCancel (filePath : string).

Definition step (st : Main) (e : Event) : Main :=
  match e with
  | InvokeCompress filePath outputPath opts probe =>
      compressVideo filePath outputPath opts probe st
  | ProcessEnd filePath outputPath originalSize statSize =>
      onEnd filePath outputPath originalSize statSize st
  | ProcessError filePath t => onError filePath (errorMessage t) st
  | InvokeCancel filePath => snd (cancelVideo filePath st)
  end.

Definition run (events : list Event) : Main := fold_left step events initial.

End Desktop.

(* ===================================================================== *)
(** * The desktop renderer: [compressVideo] *)
(* ===================================================================== *)

Module Renderer.

Record VideoFile : Type := {
  path : string;
  name : string;
  size : Z;
}.

Record State : Type := {
  videoFile : option VideoFile;
  videoOutputPath : option string;
  isCompressing : bool;
}.

(** The value of the [#videoTargetSize] select after [parseInt]: the custom
    field can hold anything ([None] is [NaN]), the presets are numbers. *)
Inductive TargetSize : Type :=
| Custom (parsed : option Z)
| Preset (parsed : Z).

(** What the page and the main process answer during one call. *)
Record Page : Type := {
  videoTargetSize : TargetSize;
  videoFormat : string;
  videoQuality : string;
  selectSavePath : option string;
  compressVideoReply : Desktop.VideoResult;
}.

Inductive Event : Type :=
| ShowToast (message : string) (kind : string)
| AlreadyUnderToast (targetSizeMB : Z)
| SelectSavePath (defaultName : string)
| InvokeCompressVideo (filePath savePath : string) (opts : Desktop.Options)
| ShowResult (originalSize compressedSize : Z).

(** [name.replace(/\.[^.]+$/, "")]: drop a last extension of at least one
    character. *)
Fixpoint lastDot (s : string) : option nat :=
  match s with
  | EmptyString => None
  | String c rest =>
      match lastDot rest with
      | Some i => Some (S i)
      | None => if Ascii.eqb c "."%char then Some 0%nat else None
      end
  end.

Definition baseName (name : string) : string :=
  match lastDot name with
  | Some dot =>
      if Nat.ltb (S dot) (String.length name) then substring 0 dot name else name
  | None => name
  end.

Definition withCompressing (b : bool) (st : State) : State :=
  {| videoFile := videoFile st; videoOutputPath := videoOutputPath st;
     isCompressing := b |}.

Definition withOutputPath (p : string) (st : State) : State :=
  {| videoFile := videoFile st; videoOutputPath := Some p;
     isCompressing := isCompressing st |}.

(** [compressVideo()]: the final state and the events, in order. *)
Definition compressVideo (page : Page) (st : State) : State * list Event :=
  match videoFile st with
  | None => (st, [])
  | Some f =>
      if isCompressing st then (st, []) else
      let target :=
        match videoTargetSize page with
        | Custom (Some n) => if n <? 1 then None else Some n
        | Custom None => None
        | Preset n => Some n
        end in
      match target with
      | None => (st, [ShowToast "Enter a valid target size" "error"])
      | Some targetSizeMB =>
          let fileSizeMB := (inject_Z (size f) / inject_Z (1024 * 1024))%Q in
          if Js.le fileSizeMB (inject_Z targetSizeMB)
          then (st, [AlreadyUnderToast targetSizeMB])
          else
            let ext := videoFormat page in
            let ask := SelectSavePath (baseName (name f) +:+ "." +:+ ext) in
            match selectSavePath page with
            | None => (st, [ask])
            | Some savePath =>
                let opts :=
                  {| Desktop.targetSizeMB := targetSizeMB;
                     Desktop.quality := Some (videoQuality page);
                     Desktop.outputFormat := Some ext |} in
                let call := InvokeCompressVideo (path f) savePath opts in
                let st' := withCompressing false (withOutputPath savePath st) in
                match compressVideoReply page with
                | Desktop.Success _ originalSize compressedSize =>
                    (st', [ask; call; ShowResult originalSize compressedSize;
                           ShowToast "Video compressed successfully!" "success"])
                | Desktop.Cancelled =>
                    (st', [ask; call; ShowToast "Compression cancelled" "warning"])
                | Desktop.Failed error =>
                    (st', [ask; call;
                           ShowToast (Js.or_string (Some error) "Compression failed") "error"])
                end
            end
      end
  end.

Definition invocations (events : list Event) : list Event :=
  List.filter (fun e => match e with InvokeCompressVideo _ _ _ => true | _ => false end)
    events.

End Renderer.

(* ===================================================================== *)
(** * The browser video module (FFmpeg.wasm) *)
(* ===================================================================== *)

Module Web.

Record File : Type := {
  name : string;
  size : Z;
}.

(** A [Blob]: its [size] and [type]. *)
Record Blob : Type := {
  blobSize : Z;
  blobType : string;
}.

(** [videoState]; [ffmpeg] tells whether an engine instance is held. *)
Record VideoState : Type := {
  file : option File;
  compressedBlob : option Blob;
  compressedFileName : option string;
  ffmpeg : bool;
  isLoading : bool;
  isCompressing : bool;
  startTime : option Z;
}.

(** Calls into the FFmpeg.wasm instance and its answers.  A resolved
    [readFile] carries the length of the data, a resolved [exec] the
    return code. *)
Inductive Call : Type :=
| WriteFile (path : string)
| Exec (args : list string)
| ReadFile (path : string)
| DeleteFile (path : string).

Inductive Reply : Type :=
| Resolved (value : Z)
| Rejected (message : string).

Inductive TargetSize : Type :=
| Custom (parsed : option Z)
| Preset (parsed : Z).

(** Everything the page and the browser supply to one run:
    the form fields, whether the engine can be loaded and the file read,
    the duration probe ([None] when the probe errors), the answer to the
    n-th FFmpeg call, the clock, and the call (if any) during which the
    user's click on Cancel is handled. *)
Record Page : Type := {
  engineLoads : bool;
  videoTargetSize : TargetSize;
  videoQualityPreset : string;
  videoOutputFormat : string;
  fileReadable : bool;
  metadataDuration : option Q;
  reply : nat -> Reply;
  now : nat -> Z;
  cancelDuring : option nat;
}.

Inductive Event : Type :=
| ShowToast (message : string) (kind : string)
| AlreadyUnderToast (fileSize targetSizeMB : Z)
| ShowVideoProgress (title detail : string)
| UpdateVideoProgress (percent : Z) (title detail : string)
| ShowVideoResult
| SetDisplay (id value : string)
| SetDisabled (id : string) (disabled : bool)
| Ffmpeg (call : Call) (answer : Reply)
| Terminate.

Record World : Type := {
  state : VideoState;
  log : list Event;
  calls : nat;
}.

(** ** Field updates of [videoState] *)

Definition setCompressedBlob (b : Blob) (s : VideoState) : VideoState :=
  {| file := file s; compressedBlob := Some b;
     compressedFileName := compressedFileName s; ffmpeg := ffmpeg s;
     isLoading := isLoading s; isCompressing := isCompressing s;
     startTime := startTime s |}.

Definition setCompressedFileName (n : string) (s : VideoState) : VideoState :=
  {| file := file s; compressedBlob := compressedBlob s;
     compressedFileName := Some n; ffmpeg := ffmpeg s;
     isLoading := isLoading s; isCompressing := isCompressing s;
     startTime := startTime s |}.

Definition setFfmpeg (b : bool) (s : VideoState) : VideoState :=
  {| file := file s; compressedBlob := compressedBlob s;
     compressedFileName := compressedFileName s; ffmpeg := b;
     isLoading := isLoading s; isCompressing := isCompressing s;
     startTime := startTime s |}.

Definition setIsLoading (b : bool) (s : VideoState) : VideoState :=
  {| file := file s; compressedBlob := compressedBlob s;
     compressedFileName := compressedFileName s; ffmpeg := ffmpeg s;
     isLoading := b; isCompressing := isCompressing s;
     startTime := startTime s |}.

Definition setIsCompressing (b : bool) (s : VideoState) : VideoState :=
  {| file := file s; compressedBlob := compressedBlob s;
     compressedFileName := compressedFileName s; ffmpeg := ffmpeg s;
     isLoading := isLoading s; isCompressing := b;
     startTime := startTime s |}.

Definition setStartTime (t : Z) (s : VideoState) : VideoState :=
  {| file := file s; compressedBlob := compressedBlob s;
     compressedFileName := compressedFileName s; ffmpeg := ffmpeg s;
     isLoading := isLoading s; isCompressing := isCompressing s;
     startTime := Some t |}.

(** ** The monad of an [async] body: state, log and exceptions *)

Definition M (A : Type) : Type := World -> Js.Completion A * World.

Definition ret {A : Type} (a : A) : M A := fun w => (Js.Returns a, w).

Definition throw {A : Type} (message : string) : M A :=
  fun w => (Js.Throws message, w).

Definition bind {A B : Type} (m : M A) (k : A -> M B) : M B :=
  fun w =>
    match m w with
    | (Js.Returns a, w') => k a w'
    | (Js.Throws message, w') => (Js.Throws message, w')
    end.

#[global] Instance M_ret : MRet M := @ret.
#[global] Instance M_bind : MBind M := fun A B k m => bind m k.

Definition emit (e : Event) : M unit :=
  fun w => (Js.Returns tt,
            {| state := state w; log := log w ++ [e]; calls := calls w |}).

Definition update (f : VideoState -> VideoState) : M unit :=
  fun w => (Js.Returns tt,
            {| state := f (state w); log := log w; calls := calls w |}).

Definition get : M VideoState := fun w => (Js.Returns (state w), w).

(** [try { m } catch (e) { h(e) }] *)
Definition tryCatch {A : Type} (m : M A) (h : string -> M A) : M A :=
  fun w =>
    match m w with
    | (Js.Returns a, w') => (Js.Returns a, w')
    | (Js.Throws message, w') => h message w'
    end.

(** ** [cancelVideoCompression]: the new state and what the page shows *)
Definition cancelVideoCompression (s : VideoState) : VideoState * list Event :=
  if ffmpeg s && isCompressing s then
    (setIsCompressing false (setFfmpeg false s),
     [ Terminate;
       SetDisplay "videoProgressSection" "none";
       SetDisabled "videoCompressBtn" false;
       ShowToast "Compression cancelled" "warning" ])
  else (s, []).

(** The click on Cancel, if it is handled while call [n] is awaited. *)
Definition interrupt (page : Page) (n : nat) (s : VideoState)
  : VideoState * list Event :=
  match cancelDuring page with
  | Some k => if Nat.eqb k n then cancelVideoCompression s else (s, [])
  | None => (s, [])
  end.

(** One awaited call of the engine: the call is issued, a click on Cancel
    that arrives meanwhile is handled, then the answer is consumed. *)
Definition await (page : Page) (c : Call) : M Z :=
  fun w =>
    let n := calls w in
    let answer := reply page n in
    let handled := interrupt page n (state w) in
    let w' :=
      {| state := fst handled;
         log := log w ++ Ffmpeg c answer :: snd handled;
         calls := S n |} in
    match answer with
    | Resolved v => (Js.Returns v, w')
    | Rejected message => (Js.Throws message, w')
    end.

(** ** [loadFFmpeg] *)
Definition loadFFmpeg (page : Page) : M bool :=
  s ← get;
  if ffmpeg s then ret true
  else if isLoading s then ret false
  else
    update (setIsLoading true);;
    emit (ShowVideoProgress "Loading video engine..."
            "This is a one-time ~30MB download");;
    if engineLoads page then
      update (setFfmpeg true);;
      update (setIsLoading false);;
      ret true
    else
      update (setIsLoading false);;
      throw "Failed to load video engine. Please use a modern browser (Chrome, Edge, or Firefox).".

(** ** Helpers of the module *)

Fixpoint lastIndexOfDot (s : string) : option nat :=
  match s with
  | EmptyString => None
  | String c rest =>
      match lastIndexOfDot rest with
      | Some i => Some (S i)
      | None => if Ascii.eqb c "."%char then Some 0%nat else None
      end
  end.

Definition getFileExtension (filename : string) : string :=
  match lastIndexOfDot filename with
  | Some dot => substring dot (String.length filename - dot) filename
  | None => ""
  end.

(** [name.replace(/\.[^.]+$/, "")] *)
Definition baseName (filename : string) : string :=
  match lastIndexOfDot filename with
  | Some dot =>
      if Nat.ltb (S dot) (String.length filename)
      then substring 0 dot filename else filename
  | None => filename
  end.

(** [getVideoDuration]: the probed duration, 60 seconds when the probe
    errors. *)
Definition getVideoDuration (page : Page) : Q :=
  match metadataDuration page with
  | Some d => d
  | None => 60 # 1
  end.

Definition presetMap : list (string * (string * Z)) :=
  [ ("high", ("slow", 23)); ("medium", ("medium", 28)); ("low", ("fast", 32)) ].

Definition k (n : Z) : string := Js.toString n +:+ "k".

(** The argument vectors of the two passes. *)
Definition firstPassArgs (outputFormat inputName outputName preset : string)
    (crf videoBitrate audioBitrate : Z) : list string :=
  if String.eqb outputFormat "mp4" then
    [ "-i"; inputName; "-c:v"; "libx264"; "-preset"; preset;
      "-crf"; Js.toString crf; "-maxrate"; k videoBitrate;
      "-bufsize"; k (videoBitrate * 2); "-c:a"; "aac";
      "-b:a"; k audioBitrate; "-movflags"; "+faststart"; "-y"; outputName ]
  else
    [ "-i"; inputName; "-c:v"; "libvpx-vp9"; "-crf"; Js.toString crf;
      "-b:v"; k videoBitrate; "-c:a"; "libopus";
      "-b:a"; k audioBitrate; "-y"; outputName ].

Definition secondPassArgs (outputFormat inputName outputName preset : string)
    (videoBitrate audioBitrate : Z) : list string :=
  if String.eqb outputFormat "mp4" then
    [ "-i"; inputName; "-c:v"; "libx264"; "-preset"; preset;
      "-b:v"; k videoBitrate; "-maxrate"; k videoBitrate;
      "-bufsize"; k (videoBitrate * 2); "-c:a"; "aac";
      "-b:a"; k (Js.min audioBitrate 96); "-movflags"; "+faststart";
      "-y"; outputName ]
  else
    [ "-i"; inputName; "-c:v"; "libvpx-vp9"; "-b:v"; k videoBitrate;
      "-c:a"; "libopus"; "-b:a"; k (Js.min audioBitrate 96);
      "-y"; outputName ].

(** ** [startVideoCompression] *)

(** The target size read from the form: a custom value that is [NaN], zero
    or below 1 is refused, a preset is taken as it is. *)
Definition requestedTargetMB (page : Page) : option Z :=
  match videoTargetSize page with
  | Custom (Some n) => if n <? 1 then None else Some n
  | Custom None => None
  | Preset n => Some n
  end.

(** The body of the [try] block, for the selected file [f]. *)
Definition compress (page : Page) (f : File) : M unit :=
  loaded ← loadFFmpeg page;
  (if loaded : bool then mret tt else throw "FFmpeg not available");;
  targetSizeMB ←
    match requestedTargetMB page with
    | Some n => mret n
    | None => throw "Please enter a valid target size"
    end;
  let qualityPreset := videoQualityPreset page in
  let outputFormat := videoOutputFormat page in
  let fileSizeMB := (inject_Z (size f) / inject_Z (1024 * 1024))%Q in
  if Js.le fileSizeMB (inject_Z targetSizeMB) then
    emit (AlreadyUnderToast (size f) targetSizeMB);;
    update (setIsCompressing false);;
    emit (SetDisabled "videoCompressBtn" false)
  else
    emit (ShowVideoProgress "Preparing video..." "Reading file into memory");;
    emit (SetDisplay "videoCancelBtn" "");;
    (if fileReadable page then mret tt else throw "Failed to read file");;
    let inputName := "input" +:+ getFileExtension (name f) in
    let outputName := "output." +:+ outputFormat in
    await page (WriteFile inputName);;
    let duration := getVideoDuration page in
    let targetSizeBytes := Estimator.targetSizeBytes targetSizeMB in
    let audioBitrate := Estimator.audioBitrate in
    let videoBitrate := Estimator.videoBitrate targetSizeMB duration in
    match Js.lookup presetMap qualityPreset with
    | None => throw "TypeError: Cannot destructure property 'preset'"
    | Some (preset, crf) =>
        update (setStartTime (now page 0));;
        emit (UpdateVideoProgress 0 "Compressing video..." "Calculating ETA...");;
        await page
          (Exec (firstPassArgs outputFormat inputName outputName preset crf
                   videoBitrate audioBitrate));;
        data ← await page (ReadFile outputName);
        let mimeType :=
          if String.eqb outputFormat "mp4" then "video/mp4" else "video/webm" in
        update (setCompressedBlob {| blobSize := data; blobType := mimeType |});;
        update (setCompressedFileName (baseName (name f) +:+ "." +:+ outputFormat));;
        (if Estimator.overshoots data targetSizeBytes then
           let videoBitrate :=
             Estimator.secondPassBitrate videoBitrate targetSizeBytes data in
           emit (UpdateVideoProgress 50 "Optimizing further..." "Adjusting bitrate");;
           await page (WriteFile inputName);;
           update (setStartTime (now page 1));;
           await page
             (Exec (secondPassArgs outputFormat inputName outputName preset
                      videoBitrate audioBitrate));;
           data2 ← await page (ReadFile outputName);
           update (setCompressedBlob {| blobSize := data2; blobType := mimeType |})
         else mret tt);;
        tryCatch
          (await page (DeleteFile inputName);;
           await page (DeleteFile outputName);;
           mret tt)
          (fun _ => mret tt);;
        emit ShowVideoResult;;
        emit (ShowToast "Video compressed successfully!" "success")
    end.

Definition start (s : VideoState) : World :=
  {| state := s; log := []; calls := 0 |}.

(** The whole function: guard, [try]/[catch]/[finally]. *)
Definition startVideoCompression (page : Page) (s : VideoState) : World :=
  match file s with
  | None => start s
  | Some f =>
      if isCompressing s then start s else
      snd ((update (setIsCompressing true);;
            emit (SetDisabled "videoCompressBtn" true);;
            tryCatch (compress page f)
              (fun message =>
                 emit (ShowToast (Js.or_string (Some message) "Video compression failed")
                         "error");;
                 emit (SetDisplay "videoProgressSection" "none"));;
            update (setIsCompressing false);;
            emit (SetDisabled "videoCompressBtn" false);;
            emit (SetDisplay "videoCancelBtn" "none")) (start s))
  end.

(** ** What a run shows *)

(** The argument vectors of the transcoding runs that were started. *)
Definition execOf (e : Event) : list (list string) :=
  match e with
  | Ffmpeg (Exec args) _ => [args]
  | _ => []
  end.

Definition execs (events : list Event) : list (list string) :=
  flat_map execOf events.

(** The sizes of the encoder outputs that were read back. *)
Definition outputOf (e : Event) : list Z :=
  match e with
  | Ffmpeg (ReadFile _) (Resolved n) => [n]
  | _ => []
  end.

Definition outputs (events : list Event) : list Z :=
  flat_map outputOf events.

(** Whether the second pass was entered: its notice
    [updateVideoProgress(50, "Optimizing further...", ...)] was shown. *)
Definition isSecondPassNotice (e : Event) : bool :=
  match e with
  | UpdateVideoProgress percent title _ =>
      (percent =? 50) && String.eqb title "Optimizing further..."
  | _ => false
  end.

Definition shows (e : Event -> bool) (events : list Event) : bool :=
  existsb e events.

Definition secondPass (events : list Event) : bool :=
  shows isSecondPassNotice events.

Definition isSuccessToast (e : Event) : bool :=
  match e with
  | ShowToast _ kind => String.eqb kind "success"
  | AlreadyUnderToast _ _ => true
  | _ => false
  end.

Definition isResult (e : Event) : bool :=
  match e with ShowVideoResult => true | _ => false end.

(** The value of option [key] in an argument vector; every option the two
    passes place before [-y] takes exactly one value. *)
Fixpoint argValue (key : string) (args : list string) : option string :=
  match args with
  | option :: value :: rest =>
      if String.eqb option key then Some value else argValue key rest
  | _ => None
  end.

(** ** The ways a run can go

    [Outcome page s events] lists the shapes the log of
    [startVideoCompression page s] can take, by what it shows of the
    transcoding runs. *)

Definition inputName (f : File) : string := "input" +:+ getFileExtension (name f).

Definition outputName (page : Page) : string := "output." +:+ videoOutputFormat page.

Definition firstArgs (page : Page) (f : File) (targetSizeMB : Z)
    (preset : string) (crf : Z) : list string :=
  firstPassArgs (videoOutputFormat page) (inputName f) (outputName page) preset crf
    (Estimator.videoBitrate targetSizeMB (getVideoDuration page))
    Estimator.audioBitrate.

Definition secondArgs (page : Page) (f : File) (targetSizeMB : Z)
    (preset : string) (size1 : Z) : list string :=
  secondPassArgs (videoOutputFormat page) (inputName f) (outputName page) preset
    (Estimator.secondPassBitrate
       (Estimator.videoBitrate targetSizeMB (getVideoDuration page))
       (Estimator.targetSizeBytes targetSizeMB) size1)
    Estimator.audioBitrate.

Inductive Outcome (page : Page) (s : VideoState) (events : list Event) : Prop :=
| Stopped :
    (* guard, engine, form, pre-check, file read, staging or preset *)
    execs events = [] -> outputs events = [] ->
    secondPass events = false -> shows isResult events = false ->
    Outcome page s events
| FirstFailed f targetSizeMB preset crf :
    file s = Some f -> requestedTargetMB page = Some targetSizeMB ->
    Js.lookup presetMap (videoQualityPreset page) = Some (preset, crf) ->
    execs events = [firstArgs page f targetSizeMB preset crf] ->
    outputs events = [] ->
    secondPass events = false -> shows isResult events = false ->
    Outcome page s events
| FirstKept f targetSizeMB preset crf size1 :
    file s = Some f -> requestedTargetMB page = Some targetSizeMB ->
    Js.lookup presetMap (videoQualityPreset page) = Some (preset, crf) ->
    Estimator.overshoots size1 (Estimator.targetSizeBytes targetSizeMB) = false ->
    execs events = [firstArgs page f targetSizeMB preset crf] ->
    outputs events = [size1] ->
    secondPass events = false -> shows isResult events = true ->
    Outcome page s events
| SecondNotStaged f targetSizeMB preset crf size1 message :
    file s = Some f -> requestedTargetMB page = Some targetSizeMB ->
    Js.lookup presetMap (videoQualityPreset page) = Some (preset, crf) ->
    Estimator.overshoots size1 (Estimator.targetSizeBytes targetSizeMB) = true ->
    reply page 3 = Rejected message ->
    execs events = [firstArgs page f targetSizeMB preset crf] ->
    outputs events = [size1] ->
    secondPass events = true -> shows isResult events = false ->
    Outcome page s events
| SecondFailed f targetSizeMB preset crf size1 :
    file s = Some f -> requestedTargetMB page = Some targetSizeMB ->
    Js.lookup presetMap (videoQualityPreset page) = Some (preset, crf) ->
    Estimator.overshoots size1 (Estimator.targetSizeBytes targetSizeMB) = true ->
    execs events = [ firstArgs page f targetSizeMB preset crf;
                     secondArgs page f targetSizeMB preset size1 ] ->
    outputs events = [size1] ->
    secondPass events = true -> shows isResult events = false ->
    Outcome page s events
| SecondKept f targetSizeMB preset crf size1 size2 :
    file s = Some f -> requestedTargetMB page = Some targetSizeMB ->
    Js.lookup presetMap (videoQualityPreset page) = Some (preset, crf) ->
    Estimator.overshoots size1 (Estimator.targetSizeBytes targetSizeMB) = true ->
    execs events = [ firstArgs page f targetSizeMB preset crf;
                     secondArgs page f targetSizeMB preset size1 ] ->
    outputs events = [size1; size2] ->
    secondPass events = true -> shows isResult events = true ->
    Outcome page s events.

End Web.


(* ===================================================================== *)
(** * Concrete requests used below *)
(* ===================================================================== *)

Module Scenario.

Definition MB : Z := 1024 * 1024.

(** A browser page asking for 16 MB, medium quality, whose engine answers
    every call with [answers]. *)
Definition page (format : string) (answers : nat -> Web.Reply)
    (cancel : option nat) : Web.Page :=
  {| Web.engineLoads := true;
     Web.videoTargetSize := Web.Preset 16;
     Web.videoQualityPreset := "medium";
     Web.videoOutputFormat := format;
     Web.fileReadable := true;
     Web.metadataDuration := Some (120 # 1);
     Web.reply := answers;
     Web.now := fun _ => 0;
     Web.cancelDuring := cancel |}.

(** A video state holding a freshly selected file of [n] bytes. *)
Definition selected (n : Z) : Web.VideoState :=
  {| Web.file := Some {| Web.name := "clip.mov"; Web.size := n |};
     Web.compressedBlob := None;
     Web.compressedFileName := None;
     Web.ffmpeg := true;
     Web.isLoading := false;
     Web.isCompressing := false;
     Web.startTime := None |}.

(** The engine produces [first] bytes in the first pass and [second] bytes
    in the second one; every other call resolves with 0. *)
Definition produces (first second : Z) (n : nat) : Web.Reply :=
  match n with
  | 2%nat => Web.Resolved first
  | 5%nat => Web.Resolved second
  | _ => Web.Resolved 0
  end.

(** As [produces], but the engine is gone from call [k] on. *)
Definition terminatedFrom (k : nat) (first second : Z) (n : nat) : Web.Reply :=
  if Nat.leb k n then Web.Rejected "called FFmpeg.terminate()"
  else produces first second n.

(** Scenario D: the first pass yields 20 MB against the 16 MB target. *)
Definition pageD (format : string) : Web.Page :=
  page format (produces (20 * MB) (15 * MB)) None.


(** The first pass yields 16 MB; the user clicks Cancel while the first
    clean-up call (call 3) is awaited, and the engine is gone from then on. *)
Definition pageCancelledLate : Web.Page :=
  page "mp4" (terminatedFrom 3 (16 * MB) 0) (Some 3%nat).

(** A page whose engine cannot be loaded, and a state that holds none. *)
Definition pageNoEngine : Web.Page :=
  {| Web.engineLoads := false;
     Web.videoTargetSize := Web.Preset 16;
     Web.videoQualityPreset := "medium";
     Web.videoOutputFormat := "mp4";
     Web.fileReadable := true;
     Web.metadataDuration := Some (120 # 1);
     Web.reply := produces 0 0;
     Web.now := fun _ => 0;
     Web.cancelDuring := None |}.

Definition selectedNoEngine (n : Z) : Web.VideoState :=
  {| Web.file := Some {| Web.name := "clip.mov"; Web.size := n |};
     Web.compressedBlob := None;
     Web.compressedFileName := None;
     Web.ffmpeg := false;
     Web.isLoading := false;
     Web.isCompressing := false;
     Web.startTime := None |}.

(** Desktop: the options and probe of a 50 MB, two-minute video. *)
Definition options : Desktop.Options :=
  {| Desktop.targetSizeMB := 16;
     Desktop.quality := Some "medium";
     Desktop.outputFormat := Some "mp4" |}.

Definition probe : Js.Completion Desktop.Metadata :=
  Js.Returns {| Desktop.duration := 120 # 1; Desktop.size := 50 * MB |}.

(** Desktop renderer: a 10 MB file and a 16 MB target. *)
Definition rendererPage : Renderer.Page :=
  {| Renderer.videoTargetSize := Renderer.Preset 16;
     Renderer.videoFormat := "mp4";
     Renderer.videoQuality := "medium";
     Renderer.selectSavePath := Some "/tmp/out.mp4";
     Renderer.compressVideoReply := Desktop.Cancelled |}.

Definition rendererState (n : Z) : Renderer.State :=
  {| Renderer.videoFile :=
       Some {| Renderer.path := "/tmp/clip.mov"; Renderer.name := "clip.mov";
               Renderer.size := n |};
     Renderer.videoOutputPath := None;
     Renderer.isCompressing := false |}.

End Scenario.

(* ===================================================================== *)
(** * server/services/compressionService.js: [compressImage] *)
(* ===================================================================== *)

Module Images.

Record FileInfo : Type := {
  id : string;
  path : string;
  mimetype : string;
  originalName : string;
}.

(** The settings object; a width or height that is [null] or [NaN] is
    [None]. *)
Record Settings : Type := {
  quality : Z;
  outputFormat : option string;
  resizeWidth : option Z;
  resizeHeight : option Z;
  maintainAspectRatio : bool;
}.

(** What the file system and sharp answer during one call, in the order the
    function asks: [fs.stat(inputPath)], [pipeline.metadata()],
    [pipeline.toFile(outputPath)], [fs.stat(outputPath)]. *)
Record Env : Type := {
  statOriginal : Js.Completion Z;
  metadata : Js.Completion (Z * Z);
  toFile : Js.Completion unit;
  statCompressed : Js.Completion Z;
}.

Record ResizeOptions : Type := {
  fit : string;
  withoutEnlargement : bool;
  width : option Z;
  height : option Z;
}.

(** Truthiness of a number that may be [null] or [NaN]. *)
Definition truthy (n : option Z) : bool :=
  match n with
  | Some v => negb (v =? 0)
  | None => false
  end.

Definition resizeOptions (settings : Settings) : option ResizeOptions :=
  if truthy (resizeWidth settings) || truthy (resizeHeight settings) then
    Some {| fit := if maintainAspectRatio settings then "inside" else "fill";
            withoutEnlargement := true;
            width := if truthy (resizeWidth settings)
                     then resizeWidth settings else None;
            height := if truthy (resizeHeight settings)
                      then resizeHeight settings else None |}
  else None.


Definition outputFilename (file : FileInfo) (settings : Settings) : string :=
  let format := Service.getOutputFormat (mimetype file) (outputFormat settings) in
  let extension := Service.getExtension format in
  id file +:+ "-compressed" +:+ extension.

(** [parseFloat(x.toFixed(1))]: the nearest multiple of 0.1, the larger one
    on a tie. *)
Definition toFixed1 (x : Q) : Q :=
  (inject_Z (Js.floor (x * inject_Z 10 + (1 # 2))) / inject_Z 10)%Q.

Record Compressed : Type := {
  originalSize : Z;
  compressedSize : Z;
  savedBytes : Z;
  savingsPercent : Q;
  compressedFilename : string;
  format : string;
  dimensions : Z * Z;
}.

Inductive Result : Type :=
| Success (id originalName : string) (c : Compressed)
| Failure (id originalName error : string).

(** [compressImage(file, settings)]: everything after the names are computed
    runs inside [try]; the first rejected call gives the failure result. *)
Definition compressImage (file : FileInfo) (settings : Settings) (env : Env) : Result :=
  let format := Service.getOutputFormat (mimetype file) (outputFormat settings) in
  let failure := Failure (id file) (originalName file) in
  match statOriginal env with
  | Js.Throws message => failure message
  | Js.Returns originalSize =>
      match metadata env with
      | Js.Throws message => failure message
      | Js.Returns dims =>
          match toFile env with
          | Js.Throws message => failure message
          | Js.Returns _ =>
              match statCompressed env with
              | Js.Throws message => failure message
              | Js.Returns compressedSize =>
                  let savedBytes := originalSize - compressedSize in
                  Success (id file) (originalName file)
                    {| originalSize := originalSize;
                       compressedSize := compressedSize;
                       savedBytes := savedBytes;
                       savingsPercent :=
                         toFixed1 (inject_Z savedBytes / inject_Z originalSize
                                   * inject_Z 100)%Q;
                       compressedFilename := outputFilename file settings;
                       format := format;
                       dimensions := dims |}
              end
          end
      end
  end.

(** A call that is rejected, and a compression one of whose four calls is. *)
Definition rejects {A : Type} (c : Js.Completion A) : Prop :=
  exists message, c = Js.Throws message.

Definition fails (env : Env) : Prop :=
  rejects (statOriginal env) \/ rejects (metadata env)
  \/ rejects (toFile env) \/ rejects (statCompressed env).

End Images.

(* ===================================================================== *)
(** * server/routes/compression.js *)
(* ===================================================================== *)

Module Routes.



(** The [settings] of a request body, each field as the handler reads it:
    [parseInt(settings?.quality)] ([None] is [NaN]); the output format
    ([None] when absent); for a width or height [None] when the field is
    falsy and otherwise the result of [parseInt]; the aspect flag, [Some b]
    when it is the boolean [b]. *)
Record Body : Type := {
  quality : option Z;
  outputFormat : option string;
  resizeWidth : option (option Z);
  resizeHeight : option (option Z);
  maintainAspectRatio : option bool;
}.

Definition compressionSettings (settings : option Body) : Images.Settings :=
  {| Images.quality :=
       Js.or_number (match settings with Some b => quality b | None => None end) 80;
     Images.outputFormat :=
       Some (Js.or_string (match settings with Some b => outputFormat b | None => None end)
               "original");
     Images.resizeWidth :=
       match settings with
       | Some b => match resizeWidth b with Some parsed => parsed | None => None end
       | None => None
       end;
     Images.resizeHeight :=
       match settings with
       | Some b => match resizeHeight b with Some parsed => parsed | None => None end
       | None => None
       end;
     Images.maintainAspectRatio :=
       match settings with
       | Some b => match maintainAspectRatio b with Some false => false | _ => true end
       | None => true
       end |}.

(** [sum + r.field]: a missing field or a [NaN] sum gives [NaN] ([None]). *)
Definition plus (sum : option Z) (field : option Z) : option Z :=
  match sum, field with
  | Some a, Some b => Some (a + b)
  | _, _ => None
  end.

Definition originalSizeOf (r : Images.Result) : option Z :=
  match r with
  | Images.Success _ _ c => Some (Images.originalSize c)
  | Images.Failure _ _ _ => None
  end.

Definition compressedSizeOf (r : Images.Result) : option Z :=
  match r with
  | Images.Success _ _ c => Some (Images.compressedSize c)
  | Images.Failure _ _ _ => None
  end.

(** [results.reduce((sum, r) => sum + r.field, 0)] *)
Definition total (field : Images.Result -> option Z) (results : list Images.Result)
  : option Z :=
  fold_left (fun sum r => plus sum (field r)) results (Some 0).

Inductive Response : Type :=
| BadRequest (error : string)
| Compressed (results : list Images.Result)
    (totalOriginalSize totalCompressedSize : option Z).

(** [POST /compress]; each file comes with the answers its compression
    gets. *)
Definition compress (files : option (list (Images.FileInfo * Images.Env)))
    (settings : option Body) : Response :=
  match files with
  | None | Some [] => BadRequest "No files to compress"
  | Some files =>
      let compressionSettings := compressionSettings settings in
      let results :=
        map (fun fe => Images.compressImage (fst fe) compressionSettings (snd fe)) files in
      Compressed results (total originalSizeOf results) (total compressedSizeOf results)
  end.

(** The two directories, as the sets of file names [fs.readdir] lists. *)
Record Store : Type := {
  uploads : gset string;
  compressed : gset string;
}.

(** The files of a directory whose name starts with [id]. *)
Definition matching (id : string) (dir : gset string) : gset string :=
  filter (fun file => String.prefix id file = true) dir.

(** One round of the loop of [DELETE /cleanup]. *)
Definition cleanupId (acc : nat * Store) (id : string) : nat * Store :=
  let (cleaned, st) := acc in
  let uploadFiles := matching id (uploads st) in
  let compressedFiles := matching id (compressed st) in
  ((cleaned + size uploadFiles + size compressedFiles)%nat,
   {| uploads := uploads st ∖ uploadFiles;
      compressed := compressed st ∖ compressedFiles |}).

(** [DELETE /cleanup]: the message of the answer and the directories left. *)
Definition cleanup (fileIds : option (list string)) (st : Store) : string * Store :=
  match fileIds with
  | None | Some [] => ("Nothing to clean up", st)
  | Some ids =>
      let (cleaned, st') := fold_left cleanupId ids (0%nat, st) in
      ("Cleaned up " +:+ pretty cleaned +:+ " file(s)", st')
  end.

End Routes.

(* ===================================================================== *)
(** * The browser video module: file selection, progress, download *)
(* ===================================================================== *)

Module VideoPage.

Definition validTypes : list string :=
  [ "video/mp4"; "video/quicktime"; "video/webm"; "video/x-msvideo";
    "video/x-matroska" ].

Definition validExts : list string := [ "mp4"; "mov"; "webm"; "avi"; "mkv" ].

(** [toLowerCase] on the letters A to Z (file names are taken to be ASCII). *)
Definition lowerChar (c : ascii) : ascii :=
  let n := nat_of_ascii c in
  if Nat.leb 65 n && Nat.leb n 90 then ascii_of_nat (n + 32) else c.

Fixpoint toLowerCase (s : string) : string :=
  match s with
  | EmptyString => EmptyString
  | String c rest => String (lowerChar c) (toLowerCase rest)
  end.

(** [name.split(".").pop()] *)
Definition lastSegment (name : string) : string :=
  match Web.lastIndexOfDot name with
  | Some dot => substring (S dot) (String.length name - S dot) name
  | None => name
  end.

Definition includes (x : string) (l : list string) : bool :=
  existsb (String.eqb x) l.

Definition setFile (f : option Web.File) (s : Web.VideoState) : Web.VideoState :=
  {| Web.file := f; Web.compressedBlob := Web.compressedBlob s;
     Web.compressedFileName := Web.compressedFileName s; Web.ffmpeg := Web.ffmpeg s;
     Web.isLoading := Web.isLoading s; Web.isCompressing := Web.isCompressing s;
     Web.startTime := Web.startTime s |}.

Definition clearCompressedBlob (s : Web.VideoState) : Web.VideoState :=
  {| Web.file := Web.file s; Web.compressedBlob := None;
     Web.compressedFileName := Web.compressedFileName s; Web.ffmpeg := Web.ffmpeg s;
     Web.isLoading := Web.isLoading s; Web.isCompressing := Web.isCompressing s;
     Web.startTime := Web.startTime s |}.

(** [handleVideoFile(file)] for a file of MIME type [fileType]; the texts
    written into the page (name, size, duration) are not part of the log. *)
Definition handleVideoFile (fileType : string) (f : Web.File) (s : Web.VideoState)
  : Web.VideoState * list Web.Event :=
  let ext := toLowerCase (lastSegment (Web.name f)) in
  if negb (includes fileType validTypes) && negb (includes ext validExts) then
    (s, [Web.ShowToast "Unsupported video format" "error"])
  else
    (setFile (Some f) s, [Web.SetDisplay "videoSettingsSection" ""]).

(** [clearVideo()] *)
Definition clearVideo (s : Web.VideoState) : Web.VideoState * list Web.Event :=
  (clearCompressedBlob (setFile None s),
   [ Web.SetDisplay "videoSettingsSection" "none";
     Web.SetDisplay "videoResultSection" "none";
     Web.SetDisplay "videoProgressSection" "none" ]).

(** [downloadCompressedVideo()]: the blob the link points to and its
    [download] name, when there is a blob. *)
Definition downloadCompressedVideo (s : Web.VideoState)
  : option (Web.Blob * option string) :=
  match Web.compressedBlob s with
  | None => None
  | Some blob => Some (blob, Web.compressedFileName s)
  end.

(** [Math.round] *)
Definition round (x : Q) : Z := Js.floor (x + (1 # 2))%Q.

(** [Math.max] on numbers that need not be integers. *)
Definition maxQ (a b : Q) : Q := if Qle_bool a b then b else a.

(** [x % y] for a divisor [y > 0]: the quotient is truncated towards zero. *)
Definition remainder (x y : Q) : Q :=
  let q := (x / y)%Q in
  let truncated := if Qle_bool 0 q then Qfloor q else Qceiling q in
  (x - y * inject_Z truncated)%Q.

(** The minutes and seconds [formatTime] prints, [None] where it prints a
    dash. *)
Definition timeParts (seconds : Q) : option (Z * Z) :=
  if negb (Qle_bool 0 seconds) then None
  else Some (Js.floor (seconds / inject_Z 60)%Q,
             Js.floor (remainder seconds (inject_Z 60))).

Definition formatTime (seconds : Q) : string :=
  match timeParts seconds with
  | None => "—"
  | Some (mins, secs) =>
      if mins =? 0 then Js.toString secs +:+ "s"
      else Js.toString mins +:+ "m " +:+ Js.toString secs +:+ "s"
  end.

(** The time left that the progress handler computes, in seconds. *)
Definition remaining (progress : Q) (dateNow startTime : Z) : Q :=
  let elapsed := (inject_Z (dateNow - startTime) / inject_Z 1000)%Q in
  let estimated := if Js.gt progress 0 then (elapsed / progress)%Q else 0%Q in
  maxQ 0 (estimated - elapsed)%Q.

Definition percentOf (progress : Q) : Z :=
  Js.min (round (progress * inject_Z 100)%Q) 99.

(** The handler of the engine's [progress] event. *)
Definition onProgress (progress : Q) (dateNow : Z) (s : Web.VideoState)
  : list Web.Event :=
  match Web.startTime s with
  | Some startTime =>
      if Web.isCompressing s && negb (startTime =? 0) then
        let percent := percentOf progress in
        let eta := formatTime (remaining progress dateNow startTime) in
        [ Web.UpdateVideoProgress percent
            ("Compressing... " +:+ Js.toString percent +:+ "%")
            ("ETA: " +:+ eta) ]
      else []
  | None => []
  end.

(** Desktop main process: the percentage sent with [video-progress],
    [Math.min(Math.round(progress.percent || 0), 99)]; [None] is a missing
    or [NaN] percentage. *)
Definition desktopPercent (percent : option Q) : Z :=
  let p := match percent with Some p => p | None => 0%Q end in
  Js.min (round p) 99.

End VideoPage.

(* ===================================================================== *)
(** * The engine calls of a browser run, by kind *)
(* ===================================================================== *)

Module Protocol.

Inductive Kind : Type := Stage | Transcode | ReadBack | Remove.

Definition kindOf (e : Web.Event) : list Kind :=
  match e with
  | Web.Ffmpeg (Web.WriteFile _) _ => [Stage]
  | Web.Ffmpeg (Web.Exec _) _ => [Transcode]
  | Web.Ffmpeg (Web.ReadFile _) _ => [ReadBack]
  | Web.Ffmpeg (Web.DeleteFile _) _ => [Remove]
  | _ => []
  end.

Definition kinds (events : list Web.Event) : list Kind := flat_map kindOf events.

Definition onePass : list Kind := [Stage; Transcode; ReadBack; Remove; Remove].

Definition twoPasses : list Kind :=
  [Stage; Transcode; ReadBack; Stage; Transcode; ReadBack; Remove; Remove].

Definition sameKind (a b : Kind) : bool :=
  match a, b with
  | Stage, Stage | Transcode, Transcode | ReadBack, ReadBack | Remove, Remove => true
  | _, _ => false
  end.

Fixpoint startOf (ks full : list Kind) : bool :=
  match ks, full with
  | [], _ => true
  | a :: ks', b :: full' => sameKind a b && startOf ks' full'
  | _ :: _, [] => false
  end.

Definition isErrorToast (e : Web.Event) : bool :=
  match e with
  | Web.ShowToast _ kind => String.eqb kind "error"
  | _ => false
  end.

Definition isAlreadyUnder (e : Web.Event) : bool :=
  match e with
  | Web.AlreadyUnderToast _ _ => true
  | _ => false
  end.

Definition isRemove (e : Web.Event) : bool :=
  match e with
  | Web.Ffmpeg (Web.DeleteFile _) _ => true
  | _ => false
  end.

Definition isTerminate (e : Web.Event) : bool :=
  match e with
  | Web.Terminate => true
  | _ => false
  end.

Definition isCancelNotice (e : Web.Event) : bool :=
  match e with
  | Web.ShowToast message kind =>
      String.eqb kind "warning" && String.eqb message "Compression cancelled"
  | _ => false
  end.

(** How often a run shows something. *)
Definition count (p : Web.Event -> bool) (events : list Web.Event) : nat :=
  length (List.filter p events).

(** The MIME type given to the blob. *)
Definition mimeType (page : Web.Page) : string :=
  if String.eqb (Web.videoOutputFormat page) "mp4" then "video/mp4" else "video/webm".

(** The blob and the download name expected in [videoState] after a run
    with the given log: those of the last output read back, the previous
    ones when nothing was read back. *)
Definition blobAfter (page : Web.Page) (s : Web.VideoState) (events : list Web.Event)
  : option Web.Blob :=
  match List.last (map Some (Web.outputs events)) None with
  | Some n => Some {| Web.blobSize := n; Web.blobType := mimeType page |}
  | None => Web.compressedBlob s
  end.

Definition nameAfter (page : Web.Page) (s : Web.VideoState) (f : Web.File)
    (events : list Web.Event) : option string :=
  match Web.outputs events with
  | [] => Web.compressedFileName s
  | _ :: _ => Some (Web.baseName (Web.name f) +:+ "." +:+ Web.videoOutputFormat page)
  end.

End Protocol.

(* ===================================================================== *)
(** * More concrete inputs *)
(* ===================================================================== *)

Module Sample.

(** Two sessions' files in the two directories. *)
Definition store : Routes.Store :=
  {| Routes.uploads := {[ "a1.png"; "b2.jpg" ]};
     Routes.compressed := {[ "a1-compressed.png"; "b2-compressed.jpg" ]} |}.

Definition png : Images.FileInfo :=
  {| Images.id := "a1"; Images.path := "/tmp/uploads/a1.png";
     Images.mimetype := "image/png"; Images.originalName := "photo.png" |}.

Definition jpg : Images.FileInfo :=
  {| Images.id := "b2"; Images.path := "/tmp/uploads/b2.jpg";
     Images.mimetype := "image/jpeg"; Images.originalName := "scan.jpg" |}.

(** A compression that succeeds (1000 bytes become 400) and one whose
    encoding is rejected. *)
Definition works : Images.Env :=
  {| Images.statOriginal := Js.Returns 1000;
     Images.metadata := Js.Returns (640, 480);
     Images.toFile := Js.Returns tt;
     Images.statCompressed := Js.Returns 400 |}.

Definition breaks : Images.Env :=
  {| Images.statOriginal := Js.Returns 1000;
     Images.metadata := Js.Returns (640, 480);
     Images.toFile := Js.Throws "Input buffer contains unsupported image format";
     Images.statCompressed := Js.Returns 0 |}.

(** A browser state that still holds the output of an earlier run. *)
Definition withOldOutput : Web.VideoState :=
  {| Web.file := Some {| Web.name := "first.mov"; Web.size := 50 * Scenario.MB |};
     Web.compressedBlob :=
       Some {| Web.blobSize := 15 * Scenario.MB; Web.blobType := "video/mp4" |};
     Web.compressedFileName := Some "first.mp4";
     Web.ffmpeg := true;
     Web.isLoading := false;
     Web.isCompressing := false;
     Web.startTime := Some 1000 |}.

(** A state whose engine is still being loaded by an earlier request. *)
Definition loading : Web.VideoState :=
  {| Web.file := Some {| Web.name := "clip.mov"; Web.size := 50 * Scenario.MB |};
     Web.compressedBlob := None;
     Web.compressedFileName := None;
     Web.ffmpeg := false;
     Web.isLoading := true;
     Web.isCompressing := false;
     Web.startTime := None |}.

(** A state in the middle of a run started at time 1000. *)
Definition running : Web.VideoState :=
  {| Web.file := Some {| Web.name := "clip.mov"; Web.size := 50 * Scenario.MB |};
     Web.compressedBlob := None;
     Web.compressedFileName := None;
     Web.ffmpeg := true;
     Web.isLoading := false;
     Web.isCompressing := true;
     Web.startTime := Some 1000 |}.

End Sample.

(* ===================================================================== *)
(** * Properties *)
(* ===================================================================== *)

#[local] Arguments Js.floor : simpl never.
#[local] Arguments Js.max : simpl never.
#[local] Arguments Js.min : simpl never.
#[local] Arguments Js.toString : simpl never.
#[local] Arguments Web.k : simpl never.
#[local] Arguments Estimator.videoBitrate : simpl never.
#[local] Arguments Estimator.secondPassBitrate : simpl never.
#[local] Arguments Estimator.overshoots : simpl never.
#[local] Arguments Estimator.targetSizeBytes : simpl never.
#[local] Arguments Web.firstPassArgs : simpl never.
#[local] Arguments Web.secondPassArgs : simpl never.
#[local] Arguments Web.getFileExtension : simpl never.
#[local] Arguments Web.baseName : simpl never.

(** ** Arithmetic of the estimates *)

Section Arithmetic.

Local Open Scope Q_scope.

Lemma floor_of_fraction (a : Z) (b : positive) (x : Q) :
  x == a # b -> Js.floor x = (a / Zpos b)%Z.
Proof.
  intros E. unfold Js.floor. rewrite (Qfloor_comp _ _ E). reflexivity.
Qed.

Lemma floor_antitone_in_subtrahend (x a1 a2 : Q) :
  a1 <= a2 -> (Js.floor (x - a2) <= Js.floor (x - a1))%Z.
Proof.
  intros H. apply Qfloor_resp_le.
  apply Qplus_le_compat; [apply Qle_refl | now apply Qopp_le_compat].
Qed.

Lemma gt_spec (x y : Q) : Js.gt x y = true <-> y < x.
Proof.
  unfold Js.gt. rewrite negb_true_iff, <- not_true_iff_false, Qle_bool_iff.
  split; [apply Qnot_le_lt | apply Qlt_not_le].
Qed.

Lemma le_spec (x y : Q) : Js.le x y = true <-> x <= y.
Proof. apply Qle_bool_iff. Qed.

(** [size > targetBytes * 1.05], without fractions. *)
Lemma overshoots_spec (size targetBytes : Z) :
  Estimator.overshoots size targetBytes = true <->
  (targetBytes * 105 < size * 100)%Z.
Proof.
  unfold Estimator.overshoots. rewrite gt_spec.
  unfold Qlt, Qmult, inject_Z. simpl. lia.
Qed.

Lemma palette_floor (quality : Z) :
  Js.floor (256 * (inject_Z quality / 100)) = (256 * quality / 100)%Z.
Proof.
  apply (floor_of_fraction (256 * quality) 100).
  unfold Qeq, Qmult, Qdiv, Qinv, inject_Z. simpl. lia.
Qed.

End Arithmetic.

(** C3.  For every duration [d > 0], target size [t > 0] and audio budget
    [a >= 0] the first-pass estimate [max(100, floor(t*8/d/1000 - a))] is at
    least 100 kbps, and it does not increase when the audio budget grows; the
    bitrate of both video paths is this estimate at the budget of 128. *)
Theorem estimate_floor_and_antitone (d : Q) (t : Z) (a a' : Q) :
  (0 < d)%Q -> 0 < t -> (0 <= a)%Q -> (a <= a')%Q ->
  100 <= Estimator.estimate d t a
  /\ Estimator.estimate d t a' <= Estimator.estimate d t a
  /\ (forall mb, Estimator.videoBitrate mb d
                 = Estimator.estimate d (mb * 1024 * 1024) (128 # 1)).
Proof.
  intros _ _ _ Ha. unfold Estimator.estimate, Js.max. split; [ | split ].
  - apply Z.le_max_l.
  - apply Z.max_le_compat_l. now apply floor_antitone_in_subtrahend.
  - reflexivity.
Qed.

Lemma estimate_floor_and_antitone_witness :
  100 <= Estimator.estimate (120 # 1) (16 * 1024 * 1024) (128 # 1)
  /\ Estimator.estimate (120 # 1) (16 * 1024 * 1024) (192 # 1)
     <= Estimator.estimate (120 # 1) (16 * 1024 * 1024) (128 # 1).
Proof.
  destruct (estimate_floor_and_antitone (120 # 1) (16 * 1024 * 1024)
              (128 # 1) (192 # 1)) as (H1 & H2 & _);
    [reflexivity | reflexivity | discriminate | discriminate | ].
  split; [exact H1 | exact H2].
Defined.

(** C4 (as amended).  For a duration of 120 s, a target of 16 MB and the audio
    budget of 128 kbps the first-pass video bitrate is 990 kbps: the program
    divides the bits of 16 * 1024 * 1024 bytes by 120 and by 1000. *)
Theorem scenario_A_bitrate :
  Estimator.videoBitrate 16 (120 # 1) = 990
  /\ Estimator.targetTotalBitrate (Estimator.targetSizeBytes 16) (120 # 1)
     == (134217728 # 120000)%Q.
Proof. split; reflexivity. Qed.

(** C4 (as stated) fails: the program does not compute 964 kbps. *)
Lemma scenario_A_bitrate_not_964 :
  Estimator.videoBitrate 16 (120 # 1) <> 964
  /\ Estimator.estimate (120 # 1) (Estimator.targetSizeBytes 16)
       (inject_Z Estimator.audioBitrate) <> 964.
Proof. split; vm_compute; discriminate. Qed.

(** C7.  For every quality [q] in [1, 100] and the formats png and gif the
    resolved palette size is [max(16, floor(256 * q / 100))]; hence it does
    not decrease when [q] grows, and quality 50 with png gives 128. *)
Theorem palette_size (format : string) (q q' : Z) :
  format = "png" \/ format = "gif" ->
  1 <= q <= 100 -> 1 <= q' <= 100 -> q <= q' ->
  Service.colors (Service.getCompressionOptions format q)
    = Some (Z.max 16 (256 * q / 100))
  /\ (forall c c',
        Service.colors (Service.getCompressionOptions format q) = Some c ->
        Service.colors (Service.getCompressionOptions format q') = Some c' ->
        c <= c')
  /\ Service.colors (Service.getCompressionOptions "png" 50) = Some 128.
Proof.
  intros Hf Hq Hq' Hle.
  assert (E : forall x, Service.colors (Service.getCompressionOptions format x)
                        = Some (Z.max 16 (256 * x / 100))).
  { intros x. destruct Hf as [-> | ->]; unfold Service.getCompressionOptions;
      simpl; unfold Js.max; now rewrite palette_floor. }
  split; [ | split ].
  - apply E.
  - intros c c'. rewrite !E. intros [= <-] [= <-].
    apply Z.max_le_compat_l, Z.div_le_mono; lia.
  - reflexivity.
Qed.

Lemma palette_size_witness :
  Service.colors (Service.getCompressionOptions "gif" 10) = Some (Z.max 16 (256 * 10 / 100))
  /\ Service.colors (Service.getCompressionOptions "png" 50) = Some 128.
Proof.
  destruct (palette_size "gif" 10 60) as (H1 & _ & H3);
    [now right | lia | lia | lia | ].
  split; [exact H1 | exact H3].
Defined.

(** ** Doubles agree with the exact model on the scenarios *)

Lemma double_scenario_A :
  Double.videoBitrate 16 120%float = Some (Estimator.videoBitrate 16 (120 # 1)).
Proof. vm_compute. reflexivity. Qed.

Lemma double_scenario_D :
  Double.secondPassBitrate 990 (16 * 1024 * 1024) (20 * 1024 * 1024)
  = Some (Estimator.secondPassBitrate 990 (16 * 1024 * 1024) (20 * 1024 * 1024))
  /\ Double.overshoots (20 * 1024 * 1024) (16 * 1024 * 1024)
     = Estimator.overshoots (20 * 1024 * 1024) (16 * 1024 * 1024).
Proof. split; vm_compute; reflexivity. Qed.

(** The tolerance test at its boundary for a 16 MB target (16.8 MB). *)
Lemma double_tolerance_boundary :
  Double.overshoots 17616076 (16 * 1024 * 1024) = false
  /\ Estimator.overshoots 17616076 (16 * 1024 * 1024) = false
  /\ Double.overshoots 17616077 (16 * 1024 * 1024) = true
  /\ Estimator.overshoots 17616077 (16 * 1024 * 1024) = true.
Proof. repeat split; vm_compute; reflexivity. Qed.

Lemma double_palette (q : Z) :
  In q (map Z.of_nat (seq 1 100)) ->
  Double.colors q = Service.colors (Service.getCompressionOptions "png" q).
Proof.
  intros Hq.
  assert (H : forallb
                (fun q =>
                   match Double.colors q,
                         Service.colors (Service.getCompressionOptions "png" q) with
                   | Some a, Some b => Z.eqb a b
                   | _, _ => false
                   end) (map Z.of_nat (seq 1 100)) = true)
    by (vm_compute; reflexivity).
  rewrite List.forallb_forall in H. specialize (H q Hq).
  destruct (Double.colors q), (Service.colors _); try discriminate H.
  apply Z.eqb_eq in H. now subst.
Qed.

(** ** Image profiles: formats outside the supported set *)

Lemma eqb_of_neq (a b : string) : a <> b -> String.eqb a b = false.
Proof. apply String.eqb_neq. Qed.



Lemma or_string_some (s d : string) : s <> "" -> Js.or_string (Some s) d = s.
Proof. intros H. unfold Js.or_string. now rewrite (eqb_of_neq _ _ H). Qed.





(** ** The desktop main process: how a run ends *)

Section DesktopProcess.

Import Desktop.

Lemma resolve_pending (filePath : string) (r : VideoResult) (st : Main) :
  settled st !! filePath = None ->
  settled (resolve filePath r st) !! filePath = Some r.
Proof.
  intros H. unfold resolve. rewrite H. simpl. apply lookup_insert_eq.
Qed.

Lemma resolve_settled (filePath : string) (r r0 : VideoResult) (st : Main) :
  settled st !! filePath = Some r0 -> resolve filePath r st = st.
Proof. intros H. unfold resolve. now rewrite H. Qed.

Lemma forget_settled (filePath : string) (st : Main) :
  settled (forget filePath st) = settled st.
Proof. reflexivity. Qed.

Lemma forget_active (filePath : string) (st : Main) :
  activeProcesses (forget filePath st) !! filePath = None.
Proof. apply lookup_delete_eq. Qed.

Lemma resolve_active (filePath : string) (r : VideoResult) (st : Main) :
  activeProcesses (resolve filePath r st) = activeProcesses st.
Proof. unfold resolve. now destruct (settled st !! filePath). Qed.

Lemma includes_kill_message :
  Js.includes "SIGKILL" (errorMessage (KilledBySignal "SIGKILL")) = true.
Proof. reflexivity. Qed.

End DesktopProcess.

(** C8 (as amended).  The error handler reports Cancelled exactly when the
    error message contains "SIGKILL" or "killed", and Failed with the message
    otherwise.  The kill requested through cancel-video (signal SIGKILL) is
    therefore reported as Cancelled, and so is every other termination whose
    message happens to contain one of the two words. *)
Theorem error_classification (message : string) (filePath : string)
    (st : Desktop.Main) :
  Desktop.settled st !! filePath = None ->
  Desktop.settled (Desktop.onError filePath message st) !! filePath
    = Some (Desktop.errorResult message)
  /\ (Js.includes "SIGKILL" message = true \/ Js.includes "killed" message = true ->
      Desktop.errorResult message = Desktop.Cancelled)
  /\ (Js.includes "SIGKILL" message = false -> Js.includes "killed" message = false ->
      Desktop.errorResult message = Desktop.Failed message)
  /\ Desktop.errorResult (Desktop.errorMessage (Desktop.KilledBySignal "SIGKILL"))
     = Desktop.Cancelled.
Proof.
  intros Hp. split; [ | split; [ | split ] ].
  - unfold Desktop.onError. apply resolve_pending.
    now rewrite forget_settled.
  - unfold Desktop.errorResult. intros [-> | ->]; [reflexivity | ].
    now rewrite orb_true_r.
  - unfold Desktop.errorResult. now intros -> ->.
  - reflexivity.
Qed.

Lemma error_classification_witness :
  Desktop.settled
    (Desktop.onError "/tmp/clip.mov" "ffmpeg exited with code 1: Conversion failed!"
       Desktop.initial) !! "/tmp/clip.mov"
  = Some (Desktop.Failed "ffmpeg exited with code 1: Conversion failed!").
Proof.
  destruct (error_classification "ffmpeg exited with code 1: Conversion failed!"
              "/tmp/clip.mov" Desktop.initial) as (H1 & _ & H3 & _);
    [reflexivity | ].
  rewrite H1, H3 by reflexivity. reflexivity.
Defined.

(** C8 (as stated) fails: a process that exits with code 1 (no kill was
    requested, no signal was sent) is reported as Cancelled when the last
    line of its error output mentions "killed", here through a file name. *)
Lemma failed_exit_reported_as_cancelled :
  let t := Desktop.ExitedWithCode 1 "/tmp/killed.mov: No such file or directory" in
  let final :=
    Desktop.run
      [ Desktop.InvokeCompress "/tmp/killed.mov" "/tmp/out.mp4" Scenario.options
          Scenario.probe;
        Desktop.ProcessError "/tmp/killed.mov" t ] in
  Desktop.errorMessage t
    = "ffmpeg exited with code 1: /tmp/killed.mov: No such file or directory"
  /\ Desktop.signals final = []
  /\ Desktop.settled final !! "/tmp/killed.mov" = Some Desktop.Cancelled
  /\ Desktop.settled final !! "/tmp/killed.mov"
     <> Some (Desktop.Failed (Desktop.errorMessage t)).
Proof.
  cbv zeta. split; [ | split; [ | split ] ].
  - reflexivity.
  - reflexivity.
  - vm_compute. reflexivity.
  - vm_compute. discriminate.
Qed.

(** ** The browser module: every run has one of the listed outcomes *)

Section WebRuns.

Import Web.

Lemma interrupt_quiet (page : Page) (n : nat) (s : VideoState) :
  execs (snd (interrupt page n s)) = []
  /\ outputs (snd (interrupt page n s)) = []
  /\ secondPass (snd (interrupt page n s)) = false
  /\ shows isResult (snd (interrupt page n s)) = false.
Proof.
  unfold interrupt, cancelVideoCompression.
  destruct (cancelDuring page) as [k | ]; [ | now cbn].
  destruct (Nat.eqb k n); [ | now cbn].
  destruct (ffmpeg s && isCompressing s); now cbn.
Qed.

Lemma execs_app (a b : list Event) : execs (a ++ b)%list = (execs a ++ execs b)%list.
Proof. apply flat_map_app. Qed.

Lemma outputs_app (a b : list Event) :
  outputs (a ++ b)%list = (outputs a ++ outputs b)%list.
Proof. apply flat_map_app. Qed.

Lemma secondPass_app (a b : list Event) :
  secondPass (a ++ b)%list = secondPass a || secondPass b.
Proof. apply existsb_app. Qed.

Lemma shows_app (p : Event -> bool) (a b : list Event) :
  shows p (a ++ b)%list = shows p a || shows p b.
Proof. apply existsb_app. Qed.

Lemma execs_cons (e : Event) (l : list Event) :
  execs (e :: l) = (execOf e ++ execs l)%list.
Proof. reflexivity. Qed.

Lemma outputs_cons (e : Event) (l : list Event) :
  outputs (e :: l) = (outputOf e ++ outputs l)%list.
Proof. reflexivity. Qed.

Lemma secondPass_cons (e : Event) (l : list Event) :
  secondPass (e :: l) = isSecondPassNotice e || secondPass l.
Proof. reflexivity. Qed.

Lemma shows_cons (p : Event -> bool) (e : Event) (l : list Event) :
  shows p (e :: l) = p e || shows p l.
Proof. reflexivity. Qed.

Lemma execs_interrupt (page : Page) (n : nat) (s : VideoState) :
  execs (snd (interrupt page n s)) = [].
Proof. apply interrupt_quiet. Qed.

Lemma outputs_interrupt (page : Page) (n : nat) (s : VideoState) :
  outputs (snd (interrupt page n s)) = [].
Proof. apply interrupt_quiet. Qed.

Lemma secondPass_interrupt (page : Page) (n : nat) (s : VideoState) :
  secondPass (snd (interrupt page n s)) = false.
Proof. apply interrupt_quiet. Qed.

Lemma result_interrupt (page : Page) (n : nat) (s : VideoState) :
  shows isResult (snd (interrupt page n s)) = false.
Proof. apply interrupt_quiet. Qed.

End WebRuns.

Create Rewrite HintDb observe.
#[local] Hint Rewrite execs_app outputs_app secondPass_app shows_app
  execs_cons outputs_cons secondPass_cons shows_cons
  execs_interrupt outputs_interrupt secondPass_interrupt result_interrupt : observe.

(** Read the observations off a log. *)
Ltac observe :=
  autorewrite with observe;
  cbn beta iota zeta delta
    [Web.execOf Web.outputOf Web.isSecondPassNotice Web.isResult app orb andb
     Z.eqb Pos.eqb String.eqb Ascii.eqb Bool.eqb];
  unfold Web.firstArgs, Web.secondArgs, Web.inputName, Web.outputName;
  try reflexivity.

(** Run the monadic code on the current world. *)
Ltac run :=
  cbn beta iota zeta delta
    [fst snd app Web.log Web.state Web.calls
     Web.file Web.compressedBlob Web.compressedFileName Web.ffmpeg Web.isLoading
     Web.isCompressing Web.startTime
     Web.setCompressedBlob Web.setCompressedFileName Web.setFfmpeg Web.setIsLoading
     Web.setIsCompressing Web.setStartTime].

Ltac expose :=
  unfold Web.compress, Web.loadFFmpeg, Web.await, Web.tryCatch, Web.start,
    mbind, mret, Web.M_bind, Web.M_ret, Web.bind, Web.ret, Web.emit, Web.update,
    Web.get, Web.throw.

Ltac split_on t := destruct t eqn:?.

(** The next test of the program, in program order. *)
Ltac step :=
  match goal with
  | |- context [if Web.ffmpeg ?s then _ else _] => split_on (Web.ffmpeg s)
  | |- context [if Web.isLoading ?s then _ else _] => split_on (Web.isLoading s)
  | |- context [if Web.engineLoads ?p then _ else _] => split_on (Web.engineLoads p)
  | |- context [match Web.requestedTargetMB ?p with _ => _ end] =>
      split_on (Web.requestedTargetMB p)
  | |- context [if Js.le ?a ?b then _ else _] => split_on (Js.le a b)
  | |- context [if Web.fileReadable ?p then _ else _] => split_on (Web.fileReadable p)
  | |- context [match Web.reply ?p 0%nat with _ => _ end] => split_on (Web.reply p 0%nat)
  | |- context [match Js.lookup Web.presetMap ?q with _ => _ end] =>
      destruct (Js.lookup Web.presetMap q) as [[? ?] | ] eqn:?
  | |- context [match Web.reply ?p 1%nat with _ => _ end] => split_on (Web.reply p 1%nat)
  | |- context [match Web.reply ?p 2%nat with _ => _ end] => split_on (Web.reply p 2%nat)
  | |- context [if Estimator.overshoots ?a ?b then _ else _] =>
      split_on (Estimator.overshoots a b)
  | |- context [match Web.reply ?p 3%nat with _ => _ end] => split_on (Web.reply p 3%nat)
  | |- context [match Web.reply ?p 4%nat with _ => _ end] => split_on (Web.reply p 4%nat)
  | |- context [match Web.reply ?p 5%nat with _ => _ end] => split_on (Web.reply p 5%nat)
  | |- context [match Web.reply ?p 6%nat with _ => _ end] => split_on (Web.reply p 6%nat)
  | |- context [match Web.reply ?p 7%nat with _ => _ end] => split_on (Web.reply p 7%nat)
  end.

(** The outcome a finished path belongs to. *)
Ltac pick :=
  match goal with
  | _ : Estimator.overshoots _ _ = true, _ : Web.reply _ 5%nat = Web.Resolved _ |- _ =>
      eapply Web.SecondKept
  | _ : Estimator.overshoots _ _ = true, _ : Web.reply _ 3%nat = Web.Rejected _ |- _ =>
      eapply Web.SecondNotStaged
  | _ : Estimator.overshoots _ _ = true |- _ => eapply Web.SecondFailed
  | _ : Estimator.overshoots _ _ = false |- _ => eapply Web.FirstKept
  | _ : Web.reply _ 1%nat = _ |- _ => eapply Web.FirstFailed
  | |- _ => apply Web.Stopped
  end.

Lemma run_outcome (page : Web.Page) (s : Web.VideoState) :
  Web.Outcome page s (Web.log (Web.startVideoCompression page s)).
Proof.
  unfold Web.startVideoCompression.
  destruct (Web.file s) as [f | ] eqn:Hf; [ | now apply Web.Stopped].
  destruct (Web.isCompressing s) eqn:Hc; [now apply Web.Stopped | ].
  expose. run. repeat (step; run).
  all: pick; try eassumption.
  all: observe.
Qed.

(** ** The browser module: attempts, tolerance and the second pass *)






Lemma first_pass_audio_arg (format input output preset : string) (crf v a : Z) :
  Web.argValue "-b:a" (Web.firstPassArgs format input output preset crf v a)
  = Some (Web.k a).
Proof.
  unfold Web.firstPassArgs. destruct (String.eqb format "mp4"); reflexivity.
Qed.

Lemma second_pass_audio_arg (format input output preset : string) (v a : Z) :
  Web.argValue "-b:a" (Web.secondPassArgs format input output preset v a)
  = Some (Web.k (Js.min a 96)).
Proof.
  unfold Web.secondPassArgs. destruct (String.eqb format "mp4"); reflexivity.
Qed.

Lemma two_execs (page : Web.Page) (s : Web.VideoState) (args1 args2 : list string) :
  Web.execs (Web.log (Web.startVideoCompression page s)) = [args1; args2] ->
  exists f targetSizeMB preset crf size1,
    Web.requestedTargetMB page = Some targetSizeMB
    /\ head (Web.outputs (Web.log (Web.startVideoCompression page s))) = Some size1
    /\ Estimator.overshoots size1 (Estimator.targetSizeBytes targetSizeMB) = true
    /\ args1 = Web.firstArgs page f targetSizeMB preset crf
    /\ args2 = Web.secondArgs page f targetSizeMB preset size1.
Proof.
  intros H.
  destruct (run_outcome page s)
    as [ He Ho Hs Hr
       | f T preset crf Hf HT Hp He Ho Hs Hr
       | f T preset crf size1 Hf HT Hp Hov He Ho Hs Hr
       | f T preset crf size1 message Hf HT Hp Hov H3 He Ho Hs Hr
       | f T preset crf size1 Hf HT Hp Hov He Ho Hs Hr
       | f T preset crf size1 size2 Hf HT Hp Hov He Ho Hs Hr ];
    rewrite He in H; try discriminate H;
    injection H as <- <-; exists f, T, preset, crf, size1; rewrite Ho; auto.
Qed.



(** C10.  The second transcoding run asks for an audio bitrate of
    [min(128, 96) = 96] kbps where the first one asked for 128 kbps, in the
    mp4 branch as in the webm branch. *)
Theorem second_pass_audio_bitrate (page : Web.Page) (s : Web.VideoState)
    (args1 args2 : list string) :
  Web.execs (Web.log (Web.startVideoCompression page s)) = [args1; args2] ->
  Web.argValue "-b:a" args1 = Some "128k"
  /\ Web.argValue "-b:a" args2 = Some "96k"
  /\ Js.min Estimator.audioBitrate 96 = 96
  /\ (forall input output preset v,
        Web.argValue "-b:a"
          (Web.secondPassArgs "mp4" input output preset v Estimator.audioBitrate)
        = Some "96k"
        /\ Web.argValue "-b:a"
             (Web.secondPassArgs "webm" input output preset v Estimator.audioBitrate)
           = Some "96k").
Proof.
  intros H.
  destruct (two_execs page s args1 args2 H)
    as (f & T & preset & crf & size1 & _ & _ & _ & -> & ->).
  unfold Web.firstArgs, Web.secondArgs.
  rewrite first_pass_audio_arg, second_pass_audio_arg.
  split; [reflexivity | split; [reflexivity | split; [reflexivity | ] ] ].
  intros input output preset' v. rewrite !second_pass_audio_arg. split; reflexivity.
Qed.

Lemma second_pass_audio_bitrate_witness :
  exists args1 args2,
    Web.execs (Web.log (Web.startVideoCompression (Scenario.pageD "webm")
                          (Scenario.selected (50 * Scenario.MB)))) = [args1; args2]
    /\ Web.argValue "-b:a" args2 = Some "96k".
Proof.
  eexists _, _. split; [vm_compute; reflexivity | ].
  match goal with
  | |- Web.argValue _ ?a2 = _ =>
      refine (proj1 (proj2 (second_pass_audio_bitrate (Scenario.pageD "webm")
                (Scenario.selected (50 * Scenario.MB)) _ a2 _)));
        vm_compute; reflexivity
  end.
Defined.

(** ** The pre-check *)

Lemma precheck_spec (size targetSizeMB : Z) :
  Js.le (inject_Z size / inject_Z (1024 * 1024))%Q (inject_Z targetSizeMB) = true
  <-> size <= targetSizeMB * 1024 * 1024.
Proof.
  rewrite le_spec. unfold Qle, Qdiv, Qmult, Qinv, inject_Z. simpl. lia.
Qed.

(** C5 (as amended).  When the source is at most the target size, both video
    entry points stop after the pre-check with a success notice and without
    any transcoding: the browser module (once an engine instance is held or
    has loaded) makes no call to the engine and leaves [compressedBlob] and
    [compressedFileName] as they were, the desktop renderer sends no
    compress-video request.  No output is produced. *)
Theorem precheck_short_circuit :
  (forall (page : Web.Page) (s : Web.VideoState) (f : Web.File) (targetSizeMB : Z),
      Web.file s = Some f -> Web.isCompressing s = false ->
      Web.ffmpeg s = true \/ (Web.isLoading s = false /\ Web.engineLoads page = true) ->
      Web.requestedTargetMB page = Some targetSizeMB ->
      Web.size f <= targetSizeMB * 1024 * 1024 ->
      let w := Web.startVideoCompression page s in
      Web.execs (Web.log w) = []
      /\ Web.calls w = 0%nat
      /\ In (Web.AlreadyUnderToast (Web.size f) targetSizeMB) (Web.log w)
      /\ Web.shows Web.isSuccessToast (Web.log w) = true
      /\ Web.shows Web.isResult (Web.log w) = false
      /\ Web.compressedBlob (Web.state w) = Web.compressedBlob s
      /\ Web.compressedFileName (Web.state w) = Web.compressedFileName s
      /\ Web.file (Web.state w) = Some f)
  /\ (forall (page : Renderer.Page) (st : Renderer.State) (f : Renderer.VideoFile)
        (targetSizeMB : Z),
        Renderer.videoFile st = Some f -> Renderer.isCompressing st = false ->
        Renderer.videoTargetSize page = Renderer.Preset targetSizeMB
        \/ (Renderer.videoTargetSize page = Renderer.Custom (Some targetSizeMB)
            /\ 1 <= targetSizeMB) ->
        Renderer.size f <= targetSizeMB * 1024 * 1024 ->
        Renderer.compressVideo page st = (st, [Renderer.AlreadyUnderToast targetSizeMB])
        /\ Renderer.invocations (snd (Renderer.compressVideo page st)) = []).
Proof.
  split.
  - intros page s f T Hf Hc Hff HT Hsize w.
    apply precheck_spec in Hsize.
    unfold w, Web.startVideoCompression. rewrite Hf, Hc.
    expose. run.
    destruct Hff as [Hff | [Hl He] ].
    + rewrite Hff. run. rewrite HT. run. rewrite Hsize. run.
      cbn. repeat split; auto.
    + destruct (Web.ffmpeg s).
      * run. rewrite HT. run. rewrite Hsize. run. cbn. repeat split; auto.
      * rewrite Hl. run. rewrite He. run. rewrite HT. run. rewrite Hsize. run.
        cbn. repeat split; auto.
  - intros page st f T Hf Hc Ht Hsize.
    apply precheck_spec in Hsize.
    assert (E : Renderer.compressVideo page st = (st, [Renderer.AlreadyUnderToast T])).
    { unfold Renderer.compressVideo. rewrite Hf, Hc.
      destruct Ht as [-> | [-> H1] ].
      - now rewrite Hsize.
      - replace (T <? 1) with false by (symmetry; apply Z.ltb_ge; lia).
        now rewrite Hsize. }
    rewrite E. split; reflexivity.
Qed.

Lemma precheck_short_circuit_witness :
  Web.execs (Web.log (Web.startVideoCompression (Scenario.pageD "mp4")
                        (Scenario.selected (10 * Scenario.MB)))) = []
  /\ Renderer.invocations
       (snd (Renderer.compressVideo Scenario.rendererPage
               (Scenario.rendererState (10 * Scenario.MB)))) = [].
Proof.
  split.
  - refine (proj1 (proj1 precheck_short_circuit (Scenario.pageD "mp4")
                     (Scenario.selected (10 * Scenario.MB)) _ 16 eq_refl eq_refl
                     (or_introl eq_refl) eq_refl _)).
    vm_compute. discriminate.
  - refine (proj2 (proj2 precheck_short_circuit Scenario.rendererPage
                     (Scenario.rendererState (10 * Scenario.MB)) _ 16 eq_refl eq_refl
                     (or_introl eq_refl) _)).
    vm_compute. discriminate.
Defined.

(** C5 (as stated) fails: for a 10 MB source and a 16 MB target the run ends
    after the pre-check with no output at all (the blob offered for download
    stays empty, no result is shown, no output path is set); nothing
    identical to the source is delivered.  And when the browser engine cannot
    be loaded the same request ends with an error notice, not with success. *)
Lemma precheck_leaves_no_output :
  let source := 10 * Scenario.MB in
  let w := Web.startVideoCompression (Scenario.pageD "mp4") (Scenario.selected source) in
  let w' := Web.startVideoCompression Scenario.pageNoEngine
              (Scenario.selectedNoEngine source) in
  source <= 16 * Scenario.MB
  /\ Web.execs (Web.log w) = []
  /\ Web.compressedBlob (Web.state w) = None
  /\ ~ (exists output, Web.compressedBlob (Web.state w) = Some output
                       /\ Web.blobSize output = source)
  /\ Web.shows Web.isResult (Web.log w) = false
  /\ Renderer.compressVideo Scenario.rendererPage (Scenario.rendererState source)
     = (Scenario.rendererState source, [Renderer.AlreadyUnderToast 16])
  /\ Renderer.videoOutputPath
       (fst (Renderer.compressVideo Scenario.rendererPage (Scenario.rendererState source)))
     = None
  /\ Web.shows Web.isSuccessToast (Web.log w') = false
  /\ In (Web.ShowToast
           "Failed to load video engine. Please use a modern browser (Chrome, Edge, or Firefox)."
           "error") (Web.log w').
Proof.
  cbv zeta. repeat split; try (vm_compute; congruence).
  - intros (output & H & _). vm_compute in H. discriminate H.
  - vm_compute. tauto.
Qed.

(** ** Cancellation after the work is done *)

Lemma delivered_after_last_output (page : Web.Page) (s : Web.VideoState) :
  let events := Web.log (Web.startVideoCompression page s) in
  forall targetSizeMB,
    Web.requestedTargetMB page = Some targetSizeMB ->
    (exists size1,
        Web.outputs events = [size1]
        /\ Estimator.overshoots size1 (Estimator.targetSizeBytes targetSizeMB) = false)
    \/ (exists size1 size2, Web.outputs events = [size1; size2]) ->
    Web.shows Web.isResult events = true.
Proof.
  intros events T HT' H.
  destruct (run_outcome page s)
    as [ He Ho Hs Hr
       | f T0 preset crf Hf HT Hp He Ho Hs Hr
       | f T0 preset crf size1 Hf HT Hp Hov He Ho Hs Hr
       | f T0 preset crf size1 message Hf HT Hp Hov H3 He Ho Hs Hr
       | f T0 preset crf size1 Hf HT Hp Hov He Ho Hs Hr
       | f T0 preset crf size1 size2 Hf HT Hp Hov He Ho Hs Hr ];
    fold events in He, Ho, Hs, Hr; trivial;
    destruct H as [(x & Hx & Hn) | (x & y & Hx)]; rewrite Ho in Hx;
    simplify_eq; congruence.
Qed.

(** C9 (as amended).  A cancel request that arrives after the attempt has
    succeeded does not turn the request into Cancelled.  Desktop: once the
    'end' event has been handled the request is settled as Success; a later
    cancel-video finds no active process, answers [success: false] and
    changes nothing, and no later error event changes the result either.
    Browser: once the output of the last pass has been read back the result
    is shown, whether or not (and whenever) Cancel was clicked.  Only a cancel
    request that reaches a process still in the active set is answered
    [success: true], and the kill it sends is reported as Cancelled. *)
Theorem cancel_after_success :
  (forall (st : Desktop.Main) (filePath outputPath : string)
      (originalSize statSize : Z),
      Desktop.settled st !! filePath = None ->
      let finished := Desktop.onEnd filePath outputPath originalSize statSize st in
      Desktop.settled finished !! filePath
        = Some (Desktop.Success outputPath originalSize statSize)
      /\ Desktop.cancelVideo filePath finished = (false, finished)
      /\ (forall t,
            Desktop.settled
              (Desktop.onError filePath (Desktop.errorMessage t) finished) !! filePath
            = Some (Desktop.Success outputPath originalSize statSize))
      /\ (forall command,
            Desktop.activeProcesses st !! filePath = Some command ->
            fst (Desktop.cancelVideo filePath st) = true
            /\ Desktop.settled
                 (Desktop.onError filePath
                    (Desktop.errorMessage (Desktop.KilledBySignal "SIGKILL"))
                    (snd (Desktop.cancelVideo filePath st))) !! filePath
               = Some Desktop.Cancelled))
  /\ (forall (page : Web.Page) (s : Web.VideoState) (n : nat) (targetSizeMB : Z),
        Web.cancelDuring page = Some n ->
        Web.requestedTargetMB page = Some targetSizeMB ->
        let events := Web.log (Web.startVideoCompression page s) in
        (exists size1,
            Web.outputs events = [size1]
            /\ Estimator.overshoots size1 (Estimator.targetSizeBytes targetSizeMB)
               = false)
        \/ (exists size1 size2, Web.outputs events = [size1; size2]) ->
        Web.shows Web.isResult events = true).
Proof.
  split.
  - intros st filePath outputPath originalSize statSize Hp finished.
    assert (Hs : Desktop.settled finished !! filePath
                 = Some (Desktop.Success outputPath originalSize statSize)).
    { unfold finished, Desktop.onEnd. apply resolve_pending.
      now rewrite forget_settled. }
    assert (Ha : Desktop.activeProcesses finished !! filePath = None).
    { unfold finished, Desktop.onEnd. rewrite resolve_active. apply forget_active. }
    split; [exact Hs | split; [ | split ] ].
    + unfold Desktop.cancelVideo. now rewrite Ha.
    + intros t. unfold Desktop.onError.
      rewrite (resolve_settled filePath _
                 (Desktop.Success outputPath originalSize statSize));
        rewrite forget_settled; exact Hs.
    + intros command Hc. unfold Desktop.cancelVideo. rewrite Hc. simpl.
      split; [reflexivity | ].
      unfold Desktop.onError. apply resolve_pending. exact Hp.
  - intros page s n T _ HT events H.
    exact (delivered_after_last_output page s T HT H).
Qed.

Lemma cancel_after_success_witness :
  let started :=
    Desktop.run [ Desktop.InvokeCompress "/tmp/clip.mov" "/tmp/out.mp4"
                    Scenario.options Scenario.probe ] in
  let finished :=
    Desktop.onEnd "/tmp/clip.mov" "/tmp/out.mp4" (50 * Scenario.MB)
      (15 * Scenario.MB) started in
  Desktop.cancelVideo "/tmp/clip.mov" finished = (false, finished)
  /\ Web.shows Web.isResult
       (Web.log (Web.startVideoCompression Scenario.pageCancelledLate
                   (Scenario.selected (50 * Scenario.MB)))) = true.
Proof.
  intros started finished. split.
  - refine (proj1 (proj2 (proj1 cancel_after_success started "/tmp/clip.mov"
                            "/tmp/out.mp4" (50 * Scenario.MB) (15 * Scenario.MB) _))).
    vm_compute. reflexivity.
  - refine (proj2 cancel_after_success Scenario.pageCancelledLate
              (Scenario.selected (50 * Scenario.MB)) 3%nat 16 eq_refl eq_refl _).
    left. exists (16 * Scenario.MB). split; vm_compute; reflexivity.
Defined.

(** C9 (as stated) fails.  Desktop: the process ends successfully, the cancel
    request is handled next, before the renderer has seen the result, and the
    request still completes as Success.  Browser: the first pass succeeds, the
    user clicks Cancel while the clean-up is awaited (the engine is
    terminated and the notice "Compression cancelled" appears), and the run
    goes on to show the result and the success notice. *)
Lemma cancel_after_end_delivers_success :
  let final :=
    Desktop.run
      [ Desktop.InvokeCompress "/tmp/clip.mov" "/tmp/out.mp4" Scenario.options
          Scenario.probe;
        Desktop.ProcessEnd "/tmp/clip.mov" "/tmp/out.mp4" (50 * Scenario.MB)
          (15 * Scenario.MB);
        Desktop.InvokeCancel "/tmp/clip.mov" ] in
  let w := Web.startVideoCompression Scenario.pageCancelledLate
             (Scenario.selected (50 * Scenario.MB)) in
  Desktop.settled final !! "/tmp/clip.mov"
    = Some (Desktop.Success "/tmp/out.mp4" (50 * Scenario.MB) (15 * Scenario.MB))
  /\ Desktop.settled final !! "/tmp/clip.mov" <> Some Desktop.Cancelled
  /\ Web.log w
     = [ Web.SetDisabled "videoCompressBtn" true;
         Web.ShowVideoProgress "Preparing video..." "Reading file into memory";
         Web.SetDisplay "videoCancelBtn" "";
         Web.Ffmpeg (Web.WriteFile "input.mov") (Web.Resolved 0);
         Web.UpdateVideoProgress 0 "Compressing video..." "Calculating ETA...";
         Web.Ffmpeg
           (Web.Exec
              [ "-i"; "input.mov"; "-c:v"; "libx264"; "-preset"; "medium";
                "-crf"; "28"; "-maxrate"; "990k"; "-bufsize"; "1980k";
                "-c:a"; "aac"; "-b:a"; "128k"; "-movflags"; "+faststart";
                "-y"; "output.mp4" ])
           (Web.Resolved 0);
         Web.Ffmpeg (Web.ReadFile "output.mp4") (Web.Resolved (16 * Scenario.MB));
         Web.Ffmpeg (Web.DeleteFile "input.mov")
           (Web.Rejected "called FFmpeg.terminate()");
         Web.Terminate;
         Web.SetDisplay "videoProgressSection" "none";
         Web.SetDisabled "videoCompressBtn" false;
         Web.ShowToast "Compression cancelled" "warning";
         Web.ShowVideoResult;
         Web.ShowToast "Video compressed successfully!" "success";
         Web.SetDisabled "videoCompressBtn" false;
         Web.SetDisplay "videoCancelBtn" "none" ]
  /\ Web.compressedBlob (Web.state w)
     = Some {| Web.blobSize := 16 * Scenario.MB; Web.blobType := "video/mp4" |}.
Proof.
  cbv zeta. repeat split; vm_compute; try reflexivity; discriminate.
Qed.

(* ===================================================================== *)
(** * Further properties of the code *)
(* ===================================================================== *)

(** ** More of the desktop main process *)

Lemma ratio_below (size targetSizeMB : Z) (p : positive) :
  0 < size ->
  Js.gt (Zpos p # 100)
    (inject_Z targetSizeMB / (inject_Z size / inject_Z (1024 * 1024)))%Q = true
  <-> 100 * (targetSizeMB * 1024 * 1024) < Zpos p * size.
Proof.
  intros Hs. rewrite gt_spec.
  destruct size as [ | s | s]; try lia.
  unfold Qlt, Qdiv, Qmult, Qinv, inject_Z. simpl. lia.
Qed.

(** X1.  The desktop compress-video handler scales the picture by the ratio
    of the target size to the source size: for a source of positive size it
    adds [scale=-2:480] exactly when the target is below 15% of the source,
    [scale=-2:720] exactly when it is at least 15% and below 35%, and no
    scale filter from 35% on. *)
Theorem scale_filter_thresholds (opts : Desktop.Options) (meta : Desktop.Metadata) :
  0 < Desktop.size meta ->
  let target := 100 * (Desktop.targetSizeMB opts * 1024 * 1024) in
  (Desktop.scaleFilter opts meta = Some "scale=-2:480"
   <-> target < 15 * Desktop.size meta)
  /\ (Desktop.scaleFilter opts meta = Some "scale=-2:720"
      <-> 15 * Desktop.size meta <= target < 35 * Desktop.size meta)
  /\ (Desktop.scaleFilter opts meta = None
      <-> 35 * Desktop.size meta <= target).
Proof.
  intros Hs target. unfold Desktop.scaleFilter. cbv zeta.
  pose proof (ratio_below (Desktop.size meta) (Desktop.targetSizeMB opts) 15 Hs) as H15.
  pose proof (ratio_below (Desktop.size meta) (Desktop.targetSizeMB opts) 35 Hs) as H35.
  fold target in H15, H35.
  destruct (Js.gt (15 # 100) _).
  - pose proof (proj1 H15 eq_refl).
    repeat split; intros; try discriminate; try lia; trivial.
  - assert (~ target < 15 * Desktop.size meta)
      by (intros H; apply H15 in H; discriminate).
    destruct (Js.gt (35 # 100) _).
    + pose proof (proj1 H35 eq_refl).
      repeat split; intros; try discriminate; try lia; trivial.
    + assert (~ target < 35 * Desktop.size meta)
        by (intros H'; apply H35 in H'; discriminate).
      repeat split; intros; try discriminate; try lia; trivial.
Qed.

Lemma scale_filter_thresholds_witness :
  Desktop.scaleFilter Scenario.options
    {| Desktop.duration := 120 # 1; Desktop.size := 200 * Scenario.MB |}
  = Some "scale=-2:480".
Proof.
  apply (scale_filter_thresholds Scenario.options
           {| Desktop.duration := 120 # 1; Desktop.size := 200 * Scenario.MB |});
    [reflexivity | vm_compute; reflexivity].
Defined.

(** X2.  A quality tier outside high, medium and low (and not empty) makes
    the destructuring of [presetMap[options.quality || "medium"]] throw inside
    the ffprobe callback: the request is never settled, no process is
    registered and no signal is sent. *)
Theorem unknown_tier_never_settles (filePath outputPath tier : string)
    (opts : Desktop.Options) (meta : Desktop.Metadata) (st : Desktop.Main) :
  Desktop.quality opts = Some tier ->
  tier <> "" -> tier <> "high" -> tier <> "medium" -> tier <> "low" ->
  let st' := Desktop.compressVideo filePath outputPath opts (Js.Returns meta) st in
  Desktop.settled st' !! filePath = None
  /\ Desktop.activeProcesses st' = Desktop.activeProcesses st
  /\ Desktop.signals st' = Desktop.signals st.
Proof.
  intros Hq H0 H1 H2 H3 st'.
  assert (E : Desktop.buildCommand filePath outputPath opts meta
              = Js.Throws "TypeError: Cannot destructure property 'preset'").
  { unfold Desktop.buildCommand. rewrite Hq, (or_string_some _ _ H0).
    unfold Desktop.presetMap, Js.lookup.
    rewrite (eqb_of_neq "high" tier), (eqb_of_neq "medium" tier),
      (eqb_of_neq "low" tier) by congruence.
    reflexivity. }
  unfold st', Desktop.compressVideo. rewrite E. cbn.
  split; [apply lookup_delete_eq | split; reflexivity ].
Qed.

Lemma unknown_tier_never_settles_witness :
  Desktop.settled
    (Desktop.compressVideo "/tmp/clip.mov" "/tmp/out.mp4"
       {| Desktop.targetSizeMB := 16; Desktop.quality := Some "ultra";
          Desktop.outputFormat := Some "mp4" |}
       Scenario.probe Desktop.initial) !! "/tmp/clip.mov" = None.
Proof.
  refine (proj1 (unknown_tier_never_settles "/tmp/clip.mov" "/tmp/out.mp4" "ultra"
                   {| Desktop.targetSizeMB := 16; Desktop.quality := Some "ultra";
                      Desktop.outputFormat := Some "mp4" |}
                   {| Desktop.duration := 120 # 1; Desktop.size := 50 * Scenario.MB |}
                   Desktop.initial eq_refl _ _ _ _)); discriminate.
Defined.

(** X3.  cancel-video acts on one request and at most once: after it has
    run, a second cancel-video for the same path answers [success: false]
    and changes nothing; it never changes a settled result or another path's
    process; when it answers [success: false] the state is untouched, and
    when it answers [success: true] exactly one SIGKILL was sent, to that
    path's process. *)
Theorem cancel_is_local_and_once (filePath : string) (st : Desktop.Main) :
  let st' := snd (Desktop.cancelVideo filePath st) in
  fst (Desktop.cancelVideo filePath st')  = false
  /\ snd (Desktop.cancelVideo filePath st') = st'
  /\ Desktop.settled st' = Desktop.settled st
  /\ (forall other, other <> filePath ->
        Desktop.activeProcesses st' !! other = Desktop.activeProcesses st !! other)
  /\ (fst (Desktop.cancelVideo filePath st) = false -> st' = st)
  /\ (fst (Desktop.cancelVideo filePath st) = true ->
      Desktop.signals st' = (Desktop.signals st ++ [(filePath, "SIGKILL")])%list).
Proof.
  intros st'. unfold st', Desktop.cancelVideo.
  destruct (Desktop.activeProcesses st !! filePath) as [command | ] eqn:E; cbn.
  - rewrite lookup_delete_eq. cbn.
    repeat split; trivial; try discriminate.
    intros other Hne. now apply lookup_delete_ne.
  - rewrite E. cbn. repeat split; trivial; discriminate.
Qed.

Lemma cancel_is_local_and_once_witness :
  let st := Desktop.run [ Desktop.InvokeCompress "/tmp/clip.mov" "/tmp/out.mp4"
                            Scenario.options Scenario.probe ] in
  Desktop.signals (snd (Desktop.cancelVideo "/tmp/clip.mov" st))
  = [("/tmp/clip.mov", "SIGKILL")].
Proof.
  intros st.
  refine (eq_trans (proj2 (proj2 (proj2 (proj2 (proj2
            (cancel_is_local_and_once "/tmp/clip.mov" st))))) _) _).
  - vm_compute. reflexivity.
  - vm_compute. reflexivity.
Defined.

(** ** More of the desktop renderer *)

(** X4.  The desktop renderer's [compressVideo] sends at most one
    compress-video request, and only for a selected file, when no run is in
    progress, with an accepted target size that the file exceeds and a save
    path the user chose; the request carries that file's path, the save path
    and the form's target, quality and format, and the save path is
    remembered as the output path.  Without a request the output path stays
    as it was; the function always leaves [isCompressing] false, and does
    nothing at all while a run is in progress. *)
Theorem renderer_invocation (page : Renderer.Page) (st : Renderer.State) :
  let st' := fst (Renderer.compressVideo page st) in
  let events := snd (Renderer.compressVideo page st) in
  (Renderer.invocations events = []
   \/ exists f targetSizeMB savePath,
        Renderer.invocations events
        = [ Renderer.InvokeCompressVideo (Renderer.path f) savePath
              {| Desktop.targetSizeMB := targetSizeMB;
                 Desktop.quality := Some (Renderer.videoQuality page);
                 Desktop.outputFormat := Some (Renderer.videoFormat page) |} ]
        /\ Renderer.videoFile st = Some f
        /\ Renderer.isCompressing st = false
        /\ (Renderer.videoTargetSize page = Renderer.Preset targetSizeMB
            \/ (Renderer.videoTargetSize page = Renderer.Custom (Some targetSizeMB)
                /\ 1 <= targetSizeMB))
        /\ targetSizeMB * 1024 * 1024 < Renderer.size f
        /\ Renderer.selectSavePath page = Some savePath
        /\ Renderer.videoOutputPath st' = Some savePath)
  /\ (Renderer.invocations events = [] -> Renderer.videoOutputPath st' = Renderer.videoOutputPath st)
  /\ (Renderer.isCompressing st = false -> Renderer.isCompressing st' = false)
  /\ (Renderer.isCompressing st = true -> st' = st /\ events = []).
Proof.
  cbv zeta. unfold Renderer.compressVideo.
  destruct (Renderer.videoFile st) as [f | ] eqn:Hf; [ | cbn; intuition congruence].
  destruct (Renderer.isCompressing st) eqn:Hc; [cbn; intuition congruence | ].
  assert (Hpre : forall T,
             Js.le (inject_Z (Renderer.size f) / inject_Z (1024 * 1024))%Q (inject_Z T)
             = false -> T * 1024 * 1024 < Renderer.size f).
  { intros T H. destruct (Z.le_gt_cases (Renderer.size f) (T * 1024 * 1024)) as [Hle | Hgt];
      [ apply precheck_spec in Hle; congruence | lia ]. }
  destruct (Renderer.videoTargetSize page) as [ [n | ] | n] eqn:Ht.
  - destruct (n <? 1) eqn:Hn; [cbn; intuition congruence | ].
    apply Z.ltb_ge in Hn.
    destruct (Js.le _ _) eqn:Hle; [cbn; intuition congruence | ].
    apply Hpre in Hle.
    destruct (Renderer.selectSavePath page) as [savePath | ] eqn:Hs;
      [ | cbn; intuition congruence].
    destruct (Renderer.compressVideoReply page); cbn;
      (split; [right; exists f, n, savePath; intuition | intuition congruence]).
  - cbn; intuition congruence.
  - destruct (Js.le _ _) eqn:Hle; [cbn; intuition congruence | ].
    apply Hpre in Hle.
    destruct (Renderer.selectSavePath page) as [savePath | ] eqn:Hs;
      [ | cbn; intuition congruence].
    destruct (Renderer.compressVideoReply page); cbn;
      (split; [right; exists f, n, savePath; intuition | intuition congruence]).
Qed.

Lemma renderer_invocation_witness :
  Renderer.isCompressing
    (fst (Renderer.compressVideo Scenario.rendererPage
            (Scenario.rendererState (50 * Scenario.MB)))) = false.
Proof.
  apply (proj1 (proj2 (proj2 (renderer_invocation Scenario.rendererPage
                                (Scenario.rendererState (50 * Scenario.MB)))))).
  reflexivity.
Defined.

(** ** More of the image service *)

(** X5.  Whenever [getCompressionOptions] sets a palette size it is at
    least 16; it is at most 256 for a quality up to 100, exactly 16 for a
    quality up to 6, and above 256 for a quality above 100 (the function does
    not clamp the quality). *)
Theorem palette_bounds (format : string) (quality colors : Z) :
  Service.colors (Service.getCompressionOptions format quality) = Some colors ->
  16 <= colors
  /\ (quality <= 100 -> colors <= 256)
  /\ (quality <= 6 -> colors = 16)
  /\ (100 < quality -> 256 < colors).
Proof.
  unfold Service.getCompressionOptions.
  destruct (String.eqb format "jpeg"); [discriminate | ].
  destruct (String.eqb format "png");
    [ | destruct (String.eqb format "webp"); [discriminate | ];
        destruct (String.eqb format "gif"); [ | discriminate] ].
  all: cbn [Service.colors]; rewrite palette_floor; intros [= <-]; unfold Js.max.
  all: repeat split; intros.
  all: try apply Z.le_max_l.
  all: try (apply Z.max_lub; [lia | ];
            apply Z.div_le_upper_bound; lia).
  all: try (apply Z.max_l; apply Z.lt_succ_r, Z.div_lt_upper_bound; lia).
  all: try (apply Z.max_lt_iff; right; apply Z.lt_le_trans with (256 * 101 / 100);
            [reflexivity | apply Z.div_le_mono; lia]).
Qed.

Lemma palette_bounds_witness :
  16 <= 384 /\ (100 < 150 -> 256 < 384).
Proof.
  destruct (palette_bounds "png" 150 384) as (H1 & _ & _ & H4);
    [vm_compute; reflexivity | ].
  split; assumption.
Defined.




(** ** The routes of the image server *)

Section RouteTotals.

Variable field : Images.Result -> option Z.

Lemma fold_plus_nan (results : list Images.Result) :
  fold_left (fun sum r => Routes.plus sum (field r)) results None = None.
Proof. induction results as [ | r rest IH]; [reflexivity | exact IH]. Qed.

Lemma fold_plus_number (results : list Images.Result) (sizes : list Z) (start : Z) :
  Forall2 (fun r n => field r = Some n) results sizes ->
  fold_left (fun sum r => Routes.plus sum (field r)) results (Some start)
  = Some (start + fold_right Z.add 0 sizes).
Proof.
  intros H. revert start.
  induction H as [ | r n rest sizes Hr _ IH]; intros start; cbn.
  - f_equal. lia.
  - rewrite Hr. cbn. rewrite IH. f_equal. lia.
Qed.

Lemma fold_plus_missing (results : list Images.Result) (start : option Z) :
  (exists r, In r results /\ field r = None) ->
  fold_left (fun sum r => Routes.plus sum (field r)) results start = None.
Proof.
  intros (r & Hin & Hr). revert start.
  induction results as [ | r' rest IH]; intros start; [destruct Hin | ].
  destruct Hin as [-> | Hin]; cbn.
  - rewrite Hr. destruct start; apply fold_plus_nan.
  - now apply IH.
Qed.

Lemma fold_plus_defined (results : list Images.Result) (start : option Z) (t : Z) :
  fold_left (fun sum r => Routes.plus sum (field r)) results start = Some t ->
  forall r, In r results -> field r <> None.
Proof.
  intros H r Hin Hr.
  rewrite fold_plus_missing in H by eauto. discriminate H.
Qed.

End RouteTotals.

Lemma compress_image_failure (file : Images.FileInfo) (settings : Images.Settings)
    (env : Images.Env) :
  Routes.originalSizeOf (Images.compressImage file settings env) = None
  <-> Images.fails env.
Proof.
  unfold Images.compressImage, Images.fails, Images.rejects.
  destruct (Images.statOriginal env) as [a | m1]; [ | cbn; split; eauto].
  destruct (Images.metadata env) as [b | m2]; [ | cbn; split; eauto].
  destruct (Images.toFile env) as [c | m3]; [ | cbn; split; eauto 6].
  destruct (Images.statCompressed env) as [d | m4]; [ | cbn; split; eauto 6].
  cbn. split; [discriminate | ].
  intros [ [m H] | [ [m H] | [ [m H] | [m H] ] ] ]; discriminate H.
Qed.

Lemma sizes_together (r : Images.Result) :
  Routes.compressedSizeOf r = None <-> Routes.originalSizeOf r = None.
Proof. destruct r; cbn; split; congruence. Qed.

Lemma all_or_missing (field : Images.Result -> option Z) (results : list Images.Result) :
  (exists r, In r results /\ field r = None)
  \/ (exists sizes, Forall2 (fun r n => field r = Some n) results sizes).
Proof.
  induction results as [ | r rest [ (r' & Hin & Hr) | (sizes & Hs) ] ].
  - right. exists []. constructor.
  - left. exists r'. split; [now right | exact Hr].
  - destruct (field r) as [n | ] eqn:E.
    + right. exists (n :: sizes). now constructor.
    + left. exists r. split; [now left | exact E].
Qed.

Lemma total_nan (field : Images.Result -> option Z) (results : list Images.Result) :
  Routes.total field results = None <-> exists r, In r results /\ field r = None.
Proof.
  unfold Routes.total. split.
  - intros H. destruct (all_or_missing field results) as [Hm | (sizes & Hs)]; [exact Hm | ].
    rewrite (fold_plus_number field results sizes 0 Hs) in H. discriminate H.
  - apply fold_plus_missing.
Qed.

(** X7.  The totals of [POST /compress] are numbers only when every file was
    compressed: as soon as one file fails (its stat, metadata, encoding or
    final stat is rejected) both totals are [NaN]; when all succeed each
    total is the sum of the sizes. *)
Theorem totals_need_every_result (files : list (Images.FileInfo * Images.Env))
    (settings : option Routes.Body) (results : list Images.Result)
    (totalOriginal totalCompressed : option Z) :
  Routes.compress (Some files) settings
  = Routes.Compressed results totalOriginal totalCompressed ->
  length results = length files
  /\ (totalOriginal = None <-> exists fe, In fe files /\ Images.fails (snd fe))
  /\ (totalCompressed = None <-> totalOriginal = None)
  /\ (forall sizes,
        Forall2 (fun r n => Routes.originalSizeOf r = Some n) results sizes ->
        totalOriginal = Some (fold_right Z.add 0 sizes)).
Proof.
  unfold Routes.compress. destruct files as [ | fe0 rest] eqn:Efiles; [discriminate | ].
  rewrite <- Efiles. clear Efiles fe0 rest. intros [= <- <- <-].
  set (results := map _ files).
  assert (Hfail : forall field,
             (forall r, field r = None <-> Routes.originalSizeOf r = None) ->
             (Routes.total field results = None
              <-> exists fe, In fe files /\ Images.fails (snd fe))).
  { intros field Hfield. rewrite total_nan. unfold results. split.
    - intros (r & Hin & Hr). apply in_map_iff in Hin as (fe & <- & Hin).
      exists fe. split; [exact Hin | ].
      apply Hfield in Hr. now apply compress_image_failure in Hr.
    - intros (fe & Hin & Hf).
      exists (Images.compressImage (fst fe) (Routes.compressionSettings settings) (snd fe)).
      split; [now apply (in_map (fun fe => Images.compressImage (fst fe) _ (snd fe))) | ].
      apply Hfield. now apply compress_image_failure. }
  split; [apply length_map | split; [ | split ] ].
  - now apply Hfail.
  - rewrite (Hfail Routes.compressedSizeOf sizes_together).
    now rewrite (Hfail Routes.originalSizeOf).
  - intros sizes Hs. unfold Routes.total.
    now rewrite (fold_plus_number _ _ sizes 0 Hs).
Qed.

Lemma totals_need_every_result_witness :
  exists results total,
    Routes.compress (Some [(Sample.png, Sample.works); (Sample.jpg, Sample.breaks)]) None
    = Routes.Compressed results total total
    /\ total = None.
Proof.
  eexists _, _. split; [vm_compute; reflexivity | ].
  refine (proj2 (proj1 (proj2
            (totals_need_every_result
               [(Sample.png, Sample.works); (Sample.jpg, Sample.breaks)] None _ _ None _))) _).
  - vm_compute. reflexivity.
  - exists (Sample.jpg, Sample.breaks). split; [right; now left | ].
    right; right; left. now exists "Input buffer contains unsupported image format".
Defined.

(** ** Clean-up by file id *)

Section Cleanup.

Implicit Types (dir : gset string) (ids : list string) (st : Routes.Store).

Lemma elem_of_matching (id file : string) dir :
  file ∈ Routes.matching id dir <-> String.prefix id file = true /\ file ∈ dir.
Proof.
  unfold Routes.matching.
  apply (elem_of_filter (fun f => String.prefix id f = true)).
Qed.

Lemma matching_subseteq (id : string) dir : Routes.matching id dir ⊆ dir.
Proof. intros file H. now apply elem_of_matching in H. Qed.

Lemma survives_round (id file : string) dir :
  file ∈ dir ∖ Routes.matching id dir <-> file ∈ dir /\ String.prefix id file = false.
Proof.
  rewrite elem_of_difference, elem_of_matching.
  destruct (String.prefix id file); intuition congruence.
Qed.

Lemma cleanup_fold_uploads ids (cleaned : nat) st (file : string) :
  file ∈ Routes.uploads (snd (fold_left Routes.cleanupId ids (cleaned, st)))
  <-> file ∈ Routes.uploads st /\ forall id, In id ids -> String.prefix id file = false.
Proof.
  revert cleaned st. induction ids as [ | id ids IH]; intros cleaned st; cbn.
  - intuition.
  - rewrite IH. cbn. rewrite survives_round. intuition (subst; auto).
Qed.

Lemma cleanup_fold_compressed ids (cleaned : nat) st (file : string) :
  file ∈ Routes.compressed (snd (fold_left Routes.cleanupId ids (cleaned, st)))
  <-> file ∈ Routes.compressed st /\ forall id, In id ids -> String.prefix id file = false.
Proof.
  revert cleaned st. induction ids as [ | id ids IH]; intros cleaned st; cbn.
  - intuition.
  - rewrite IH. cbn. rewrite survives_round. intuition (subst; auto).
Qed.

Lemma cleanup_fold_count ids (cleaned : nat) st :
  let final := fold_left Routes.cleanupId ids (cleaned, st) in
  (fst final + size (Routes.uploads (snd final)) + size (Routes.compressed (snd final))
   = cleaned + size (Routes.uploads st) + size (Routes.compressed st))%nat.
Proof.
  revert cleaned st. induction ids as [ | id ids IH]; intros cleaned st; cbn; [reflexivity | ].
  rewrite IH. cbn.
  rewrite !size_difference by apply matching_subseteq.
  pose proof (subseteq_size _ _ (matching_subseteq id (Routes.uploads st))).
  pose proof (subseteq_size _ _ (matching_subseteq id (Routes.compressed st))).
  lia.
Qed.

End Cleanup.


Lemma prefix_empty (s : string) : String.prefix "" s = true.
Proof. apply String.prefix_correct. now destruct s. Qed.

(** X8.  [DELETE /cleanup] with a non-empty list of ids leaves, in both
    directories, exactly the files whose name starts with none of the ids,
    and reports the number of files removed; an empty id empties both
    directories. *)
Theorem cleanup_by_prefix (id0 : string) (ids : list string) (st : Routes.Store) :
  let answer := Routes.cleanup (Some (id0 :: ids)) st in
  let st' := snd answer in
  (forall file,
      file ∈ Routes.uploads st'
      <-> file ∈ Routes.uploads st
          /\ forall id, In id (id0 :: ids) -> String.prefix id file = false)
  /\ (forall file,
        file ∈ Routes.compressed st'
        <-> file ∈ Routes.compressed st
            /\ forall id, In id (id0 :: ids) -> String.prefix id file = false)
  /\ (exists cleaned : nat,
        fst answer = "Cleaned up " +:+ pretty cleaned +:+ " file(s)"
        /\ (cleaned + size (Routes.uploads st') + size (Routes.compressed st')
            = size (Routes.uploads st) + size (Routes.compressed st))%nat)
  /\ (In "" (id0 :: ids) -> Routes.uploads st' = ∅ /\ Routes.compressed st' = ∅).
Proof.
  intros answer st'.
  pose proof (cleanup_fold_uploads (id0 :: ids) 0 st) as Hu.
  pose proof (cleanup_fold_compressed (id0 :: ids) 0 st) as Hc.
  pose proof (cleanup_fold_count (id0 :: ids) 0 st) as Hn.
  unfold st', answer, Routes.cleanup.
  destruct (fold_left Routes.cleanupId (id0 :: ids) (0%nat, st)) as [cleaned final].
  cbn [fst snd] in *.
  split; [exact Hu | split; [exact Hc | split ] ].
  - exists cleaned. split; [reflexivity | exact Hn].
  - intros Hempty. split; apply elem_of_equiv_empty_L; intros file H.
    + apply Hu in H as [_ H]. specialize (H "" Hempty).
      rewrite prefix_empty in H. discriminate.
    + apply Hc in H as [_ H]. specialize (H "" Hempty).
      rewrite prefix_empty in H. discriminate.
Qed.

Lemma cleanup_by_prefix_witness :
  Routes.uploads (snd (Routes.cleanup (Some [""]) Sample.store)) = ∅.
Proof.
  refine (proj1 (proj2 (proj2 (proj2 (cleanup_by_prefix "" [] Sample.store))) _)).
  left. reflexivity.
Defined.



(** ** The browser video module: names, time and progress *)

Lemma substring_all (s : string) : substring 0 (String.length s) s = s.
Proof. induction s as [ | c s IH]; simpl; [reflexivity | now rewrite IH]. Qed.

Lemma substring_split (s : string) (i : nat) :
  (i <= String.length s)%nat ->
  substring 0 i s +:+ substring i (String.length s - i) s = s.
Proof.
  revert i. induction s as [ | c s IH]; intros [ | i] Hi; simpl in *; try lia.
  - reflexivity.
  - now rewrite substring_all.
  - change (String c (substring 0 i s +:+ substring i (String.length s - i) s) = String c s).
    f_equal. apply IH. lia.
Qed.

(** The text from the last dot on: a dot followed by dot-free text. *)
Lemma last_dot_shape (s : string) (i : nat) :
  Web.lastIndexOfDot s = Some i ->
  (i < String.length s)%nat
  /\ exists rest,
       substring i (String.length s - i) s = String "."%char rest
       /\ Web.lastIndexOfDot rest = None
       /\ String.length rest = (String.length s - S i)%nat.
Proof.
  revert i. induction s as [ | c s IH]; intros i; simpl; [discriminate | ].
  destruct (Web.lastIndexOfDot s) as [j | ] eqn:E.
  - intros [= <-]. destruct (IH j eq_refl) as (Hj & rest & Hr & Hn & Hl).
    split; [lia | ]. exists rest. simpl. auto.
  - destruct (Ascii.eqb_spec c "."%char) as [-> | ?]; [ | discriminate].
    intros [= <-]. split; [lia | ]. exists s. simpl.
    rewrite substring_all. repeat split; trivial. lia.
Qed.

(** X10.  [getFileExtension] gives either the empty string (the name has no
    dot) or a dot followed by text without a dot; in the second case the
    base name used for the download name and the extension put the file name
    together again, unless the name ends with a dot, where the base name is
    the whole name. *)
Theorem file_name_split (name : string) :
  (Web.lastIndexOfDot name = None
   /\ Web.getFileExtension name = "" /\ Web.baseName name = name)
  \/ (exists rest,
        Web.getFileExtension name = String "."%char rest
        /\ Web.lastIndexOfDot rest = None
        /\ (rest <> "" -> Web.baseName name +:+ Web.getFileExtension name = name)
        /\ (rest = "" -> Web.baseName name = name)).
Proof.
  unfold Web.getFileExtension, Web.baseName.
  destruct (Web.lastIndexOfDot name) as [dot | ] eqn:E; [right | left; auto].
  destruct (last_dot_shape name dot E) as (Hlt & rest & Hr & Hn & Hl).
  exists rest. rewrite Hr. repeat split; trivial.
  - intros Hne. assert (0 < String.length rest)%nat by (destruct rest; simpl; [congruence | lia]).
    replace (Nat.ltb (S dot) (String.length name)) with true
      by (symmetry; apply Nat.ltb_lt; lia).
    rewrite <- Hr. apply substring_split. lia.
  - intros ->. simpl in Hl.
    replace (Nat.ltb (S dot) (String.length name)) with false
      by (symmetry; apply Nat.ltb_ge; lia).
    reflexivity.
Qed.

Lemma file_name_split_witness :
  Web.baseName "holiday.2024.mov" +:+ Web.getFileExtension "holiday.2024.mov"
  = "holiday.2024.mov".
Proof.
  destruct (file_name_split "holiday.2024.mov") as [ (H & _) | (rest & Hr & _ & H & _) ].
  - vm_compute in H. discriminate H.
  - apply H. intros ->. vm_compute in Hr. discriminate Hr.
Defined.

Section Time.

Local Open Scope Q_scope.

Lemma sixtieth (n : Z) (d : positive) : (n # d) / inject_Z 60 == n # (d * 60).
Proof. unfold Qeq, Qdiv, Qmult, Qinv, inject_Z. simpl. lia. Qed.

Lemma minutes_of (n : Z) (d : positive) :
  Js.floor ((n # d) / inject_Z 60) = (n / Zpos d / 60)%Z.
Proof.
  rewrite (floor_of_fraction n (d * 60) _ (sixtieth n d)).
  rewrite Pos2Z.inj_mul. symmetry. apply Z.div_div; lia.
Qed.

Lemma seconds_left (n : Z) (d : positive) (m : Z) :
  Js.floor ((n # d) - inject_Z 60 * inject_Z m) = (n / Zpos d - 60 * m)%Z.
Proof.
  rewrite (floor_of_fraction (n + - (60 * m) * Zpos d) d).
  - rewrite Z.div_add by lia. lia.
  - unfold Qeq, Qminus, Qplus, Qopp, Qmult, inject_Z. simpl. lia.
Qed.

(** X11.  For a time of at least zero seconds [formatTime] prints the whole
    seconds split into minutes and seconds: the minutes are the whole seconds
    divided by 60, the seconds the remainder, between 0 and 59; for a
    negative time it prints a dash. *)
Theorem format_time_parts (seconds : Q) :
  (0 <= seconds ->
   VideoPage.timeParts seconds
   = Some ((Js.floor seconds / 60)%Z, (Js.floor seconds mod 60)%Z)
   /\ (0 <= Js.floor seconds mod 60 < 60)%Z
   /\ (60 * (Js.floor seconds / 60) + Js.floor seconds mod 60 = Js.floor seconds)%Z)
  /\ (seconds < 0 ->
      VideoPage.timeParts seconds = None /\ VideoPage.formatTime seconds = "—"%string).
Proof.
  split.
  - intros Hs. split; [ | split; [apply Z.mod_pos_bound; lia | ] ].
    + unfold VideoPage.timeParts.
      rewrite (proj2 (Qle_bool_iff 0 seconds) Hs). cbn [negb].
      destruct seconds as [n d].
      assert (Hn : (0 <= n)%Z) by (unfold Qle in Hs; simpl in Hs; lia).
      unfold VideoPage.remainder. cbv zeta.
      assert (Hq : Qle_bool 0 ((n # d) / inject_Z 60) = true).
      { apply Qle_bool_iff. rewrite sixtieth. unfold Qle. simpl. lia. }
      rewrite Hq.
      change (Qfloor ((n # d) / inject_Z 60)) with (Js.floor ((n # d) / inject_Z 60)).
      rewrite seconds_left, minutes_of.
      change (Js.floor (n # d)) with (n / Zpos d)%Z.
      f_equal. f_equal. rewrite Z.mod_eq by lia. lia.
    + rewrite Z.mul_comm. symmetry. rewrite Z.mul_comm. apply Z.div_mod. lia.
  - intros Hs.
    assert (E : VideoPage.timeParts seconds = None).
    { unfold VideoPage.timeParts.
      destruct (Qle_bool 0 seconds) eqn:E; [ | reflexivity].
      apply Qle_bool_iff in E. exfalso. now apply (Qlt_not_le _ _ Hs). }
    split; [exact E | ]. unfold VideoPage.formatTime. now rewrite E.
Qed.

Lemma format_time_parts_witness :
  VideoPage.timeParts (1255 # 10) = Some (2, 5)%Z.
Proof.
  refine (eq_trans (proj1 (proj1 (format_time_parts (1255 # 10)) _)) _).
  - discriminate.
  - reflexivity.
Defined.

Lemma maxQ_lower (a b : Q) : a <= VideoPage.maxQ a b.
Proof.
  unfold VideoPage.maxQ. destruct (Qle_bool a b) eqn:E.
  - now apply Qle_bool_iff.
  - apply Qle_refl.
Qed.

Lemma round_nonneg (x : Q) : 0 <= x -> (0 <= VideoPage.round x)%Z.
Proof.
  intros H. unfold VideoPage.round, Js.floor.
  change 0%Z with (Qfloor 0). apply Qfloor_resp_le.
  apply Qle_trans with x; [exact H | ].
  rewrite <- (Qplus_0_r x) at 1. apply Qplus_le_compat; [apply Qle_refl | discriminate].
Qed.

End Time.

(** ** The browser module: what every run that passes the guard does *)

(** Run the monadic code, the handling of a click on Cancel included. *)
Ltac run_all :=
  cbn beta iota zeta delta
    [fst snd app andb Nat.eqb Web.log Web.state Web.calls
     Web.file Web.compressedBlob Web.compressedFileName Web.ffmpeg Web.isLoading
     Web.isCompressing Web.startTime
     Web.setCompressedBlob Web.setCompressedFileName Web.setFfmpeg Web.setIsLoading
     Web.setIsCompressing Web.setStartTime].

Ltac recall :=
  repeat match goal with
    | H : Web.ffmpeg ?s = _ |- context [Web.ffmpeg ?s] => rewrite H
    end.

(** Whether the click on Cancel is handled during call [n]. *)
Ltac cancel_at k n :=
  let E := fresh "E" in
  destruct (Nat.eqb k n) eqn:E; [apply Nat.eqb_eq in E; subst k | ].

(** The next test of the program or of the click's handler, in program order. *)
Ltac walk :=
  match goal with
  | |- context [if Web.ffmpeg ?s then _ else _] => split_on (Web.ffmpeg s)
  | |- context [if Web.isLoading ?s then _ else _] => split_on (Web.isLoading s)
  | |- context [if Web.engineLoads ?p then _ else _] => split_on (Web.engineLoads p)
  | |- context [match Web.requestedTargetMB ?p with _ => _ end] =>
      split_on (Web.requestedTargetMB p)
  | |- context [if Js.le ?a ?b then _ else _] => split_on (Js.le a b)
  | |- context [if Web.fileReadable ?p then _ else _] => split_on (Web.fileReadable p)
  | |- context [match Web.cancelDuring ?p with _ => _ end] =>
      split_on (Web.cancelDuring p)
  | |- context [Nat.eqb ?k 0] => cancel_at k 0%nat
  | |- context [match Web.reply ?p 0%nat with _ => _ end] => split_on (Web.reply p 0%nat)
  | |- context [match Js.lookup Web.presetMap ?q with _ => _ end] =>
      destruct (Js.lookup Web.presetMap q) as [[? ?] | ] eqn:?
  | |- context [Nat.eqb ?k 1] => cancel_at k 1%nat
  | |- context [match Web.reply ?p 1%nat with _ => _ end] => split_on (Web.reply p 1%nat)
  | |- context [Nat.eqb ?k 2] => cancel_at k 2%nat
  | |- context [match Web.reply ?p 2%nat with _ => _ end] => split_on (Web.reply p 2%nat)
  | |- context [if Estimator.overshoots ?a ?b then _ else _] =>
      split_on (Estimator.overshoots a b)
  | |- context [Nat.eqb ?k 3] => cancel_at k 3%nat
  | |- context [match Web.reply ?p 3%nat with _ => _ end] => split_on (Web.reply p 3%nat)
  | |- context [Nat.eqb ?k 4] => cancel_at k 4%nat
  | |- context [match Web.reply ?p 4%nat with _ => _ end] => split_on (Web.reply p 4%nat)
  | |- context [Nat.eqb ?k 5] => cancel_at k 5%nat
  | |- context [match Web.reply ?p 5%nat with _ => _ end] => split_on (Web.reply p 5%nat)
  | |- context [Nat.eqb ?k 6] => cancel_at k 6%nat
  | |- context [match Web.reply ?p 6%nat with _ => _ end] => split_on (Web.reply p 6%nat)
  | |- context [Nat.eqb ?k 7] => cancel_at k 7%nat
  | |- context [match Web.reply ?p 7%nat with _ => _ end] => split_on (Web.reply p 7%nat)
  end.

Lemma run_report (page : Web.Page) (s : Web.VideoState) (f : Web.File) :
  Web.file s = Some f -> Web.isCompressing s = false ->
  let w := Web.startVideoCompression page s in
  let events := Web.log w in
  (Protocol.count Protocol.isAlreadyUnder events + Protocol.count Web.isResult events
   + Protocol.count Protocol.isErrorToast events = 1)%nat
  /\ Protocol.startOf (Protocol.kinds events) Protocol.onePass
     || Protocol.startOf (Protocol.kinds events) Protocol.twoPasses = true
  /\ Web.calls w = length (Protocol.kinds events)
  /\ Web.shows Protocol.isRemove events = Web.shows Web.isResult events
  /\ Web.compressedBlob (Web.state w) = Protocol.blobAfter page s events
  /\ Web.compressedFileName (Web.state w) = Protocol.nameAfter page s f events
  /\ Web.file (Web.state w) = Some f
  /\ head events = Some (Web.SetDisabled "videoCompressBtn" true)
  /\ Web.isLoading (Web.state w) = Web.isLoading s
  /\ Nat.leb (Protocol.count Protocol.isTerminate events) 1 = true
  /\ Protocol.count Protocol.isCancelNotice events
     = Protocol.count Protocol.isTerminate events
  /\ Nat.eqb (Protocol.count Protocol.isTerminate events) 1
     && Web.ffmpeg (Web.state w) = false
  /\ (forall k, Web.cancelDuring page = Some k -> (k < Web.calls w)%nat ->
      Protocol.count Protocol.isTerminate events = 1%nat)
  /\ (Protocol.count Protocol.isTerminate events = 1%nat ->
      exists k, Web.cancelDuring page = Some k /\ (k < Web.calls w)%nat).
Proof.
  intros Hf Hc.
  match goal with
  | |- let w := ?W in @?G w => set (P := G); change (P W)
  end.
  unfold Web.startVideoCompression. rewrite Hf, Hc.
  expose. unfold Web.interrupt, Web.cancelVideoCompression.
  run_all; repeat (walk; run_all; recall; run_all).
  all: subst P; cbv beta zeta; run_all.
  all: split; [ | split; [ | split; [ | split; [ | split; [ | split; [ | split;
         [ | split; [ | split; [ | split; [ | split; [ | split; [ | split ] ] ] ] ] ] ] ] ] ] ] ].
  all: try reflexivity.
  all: try assumption.
  all: try (match goal with H : Web.isLoading _ = _ |- _ => rewrite H end; reflexivity).
  all: try (intros Hone; first [ change (0%nat = 1%nat) in Hone; discriminate Hone
                               | eexists; split; [first [reflexivity | eassumption] | lia] ]).
  all: intros k' Hk' Hlt; simplify_eq; try reflexivity.
  all: repeat match goal with
         | H : Nat.eqb _ _ = false |- _ => apply Nat.eqb_neq in H
         end; lia.
Qed.

Lemma startOf_length (ks full : list Protocol.Kind) :
  Protocol.startOf ks full = true -> (length ks <= length full)%nat.
Proof.
  revert full. induction ks as [ | a ks IH]; intros [ | b full]; simpl;
    try lia; try discriminate.
  intros H. apply andb_true_iff in H as [_ H]. apply IH in H. lia.
Qed.

Lemma last_of_some (n : Z) (l : list Z) :
  exists x, List.last (map Some (n :: l)) None = Some x.
Proof.
  revert n. induction l as [ | m l IH]; intros n; [now exists n | ].
  destruct (IH m) as [x Hx]. exists x. exact Hx.
Qed.

(** The [finally] block is reached whatever the body does: the catch
    handler does not throw. *)
Lemma finally_runs (page : Web.Page) (s : Web.VideoState) (f : Web.File) :
  Web.file s = Some f -> Web.isCompressing s = false ->
  Web.isCompressing (Web.state (Web.startVideoCompression page s)) = false
  /\ exists body,
       Web.log (Web.startVideoCompression page s)
       = (body ++ [ Web.SetDisabled "videoCompressBtn" false;
                    Web.SetDisplay "videoCancelBtn" "none" ])%list.
Proof.
  intros Hf Hc. unfold Web.startVideoCompression. rewrite Hf, Hc.
  unfold Web.tryCatch, Web.start, mbind, mret, Web.M_bind, Web.M_ret, Web.bind,
    Web.ret, Web.emit, Web.update.
  run.
  destruct (Web.compress page f _) as [ [ [] | message] w1]; run.
  - split; [reflexivity | ]. exists (Web.log w1).
    now rewrite <- app_assoc.
  - split; [reflexivity | ].
    exists ((Web.log w1
             ++ [Web.ShowToast (Js.or_string (Some message) "Video compression failed")
                   "error"])
            ++ [Web.SetDisplay "videoProgressSection" "none"])%list.
    now rewrite <- (app_assoc _ [Web.SetDisabled "videoCompressBtn" false]).
Qed.

(** X12.  Every run of [startVideoCompression] that passes the guard ends
    in the [finally] block, whatever the engine answers and whenever Cancel
    is clicked: the run first disables the Compress button and last enables
    it again and hides the Cancel button; [isCompressing] is false and
    [isLoading] is what it was, so the next click on Compress passes the
    guard again. *)
Theorem run_releases_the_page (page next : Web.Page) (s : Web.VideoState)
    (f : Web.File) :
  Web.file s = Some f -> Web.isCompressing s = false ->
  let w := Web.startVideoCompression page s in
  Web.isCompressing (Web.state w) = false
  /\ Web.isLoading (Web.state w) = Web.isLoading s
  /\ head (Web.log w) = Some (Web.SetDisabled "videoCompressBtn" true)
  /\ (exists body,
        Web.log w
        = (body ++ [ Web.SetDisabled "videoCompressBtn" false;
                     Web.SetDisplay "videoCancelBtn" "none" ])%list)
  /\ head (Web.log (Web.startVideoCompression next (Web.state w)))
     = Some (Web.SetDisabled "videoCompressBtn" true).
Proof.
  intros Hf Hc w.
  destruct (finally_runs page s f Hf Hc) as [Hend Hlast].
  destruct (run_report page s f Hf Hc)
    as (_ & _ & _ & _ & _ & _ & Hfile & Hhead & Hload & _).
  fold w in Hend, Hlast, Hfile, Hhead, Hload.
  repeat split; trivial.
  now destruct (run_report next (Web.state w) f Hfile Hend)
    as (_ & _ & _ & _ & _ & _ & _ & H & _).
Qed.

Lemma run_releases_the_page_witness :
  Web.isCompressing
    (Web.state (Web.startVideoCompression (Scenario.pageD "mp4")
                  (Scenario.selected (50 * Scenario.MB)))) = false.
Proof.
  exact (proj1 (run_releases_the_page (Scenario.pageD "mp4") (Scenario.pageD "mp4")
                  (Scenario.selected (50 * Scenario.MB)) _ eq_refl eq_refl)).
Defined.

(** X13.  Every run that passes the guard reports exactly once: it shows
    either the already-under-target notice, or the result, or one error
    toast, and never two of them. *)
Theorem one_report_per_run (page : Web.Page) (s : Web.VideoState) (f : Web.File) :
  Web.file s = Some f -> Web.isCompressing s = false ->
  let events := Web.log (Web.startVideoCompression page s) in
  (Protocol.count Protocol.isAlreadyUnder events
   + Protocol.count Web.isResult events
   + Protocol.count Protocol.isErrorToast events = 1)%nat.
Proof.
  intros Hf Hc. now destruct (run_report page s f Hf Hc) as (H & _).
Qed.

Lemma one_report_per_run_witness :
  let events := Web.log (Web.startVideoCompression Scenario.pageNoEngine
                           (Scenario.selectedNoEngine (50 * Scenario.MB))) in
  (Protocol.count Protocol.isAlreadyUnder events
   + Protocol.count Web.isResult events
   + Protocol.count Protocol.isErrorToast events = 1)%nat.
Proof.
  exact (one_report_per_run Scenario.pageNoEngine
           (Scenario.selectedNoEngine (50 * Scenario.MB)) _ eq_refl eq_refl).
Defined.

(** X14.  The calls a run makes to the engine follow one of two fixed
    sequences, of which they are an initial part: stage, transcode, read
    back, remove, remove; or stage, transcode, read back, stage, transcode,
    read back, remove, remove.  A run makes at most 8 calls, every one of
    them logged, and it tries to remove the staged files exactly when it
    shows the result. *)
Theorem engine_call_protocol (page : Web.Page) (s : Web.VideoState) (f : Web.File) :
  Web.file s = Some f -> Web.isCompressing s = false ->
  let w := Web.startVideoCompression page s in
  let ks := Protocol.kinds (Web.log w) in
  Protocol.startOf ks Protocol.onePass || Protocol.startOf ks Protocol.twoPasses = true
  /\ Web.calls w = length ks
  /\ (Web.calls w <= 8)%nat
  /\ Web.shows Protocol.isRemove (Web.log w) = Web.shows Web.isResult (Web.log w).
Proof.
  intros Hf Hc w ks.
  destruct (run_report page s f Hf Hc) as (_ & Hp & Hn & Hr & _).
  fold w in Hp, Hn, Hr. fold ks in Hp, Hn.
  repeat split; trivial.
  rewrite Hn. apply orb_true_iff in Hp as [Hp | Hp];
    apply startOf_length in Hp; simpl in Hp; lia.
Qed.

Lemma engine_call_protocol_witness :
  (Web.calls (Web.startVideoCompression (Scenario.pageD "mp4")
                (Scenario.selected (50 * Scenario.MB))) <= 8)%nat.
Proof.
  exact (proj1 (proj2 (proj2 (engine_call_protocol (Scenario.pageD "mp4")
                                (Scenario.selected (50 * Scenario.MB)) _
                                eq_refl eq_refl)))).
Defined.

(** X15.  What the Download button delivers after a run is the last output
    read back during that run, named after the selected file and the output
    format; when the run read back nothing (it stopped at the pre-check or
    failed before) the button still delivers what it delivered before the
    run.  Selecting another file does not change what is delivered; only
    [clearVideo] removes it. *)
Theorem download_is_last_output :
  (forall (page : Web.Page) (s : Web.VideoState) (f : Web.File),
      Web.file s = Some f -> Web.isCompressing s = false ->
      let w := Web.startVideoCompression page s in
      VideoPage.downloadCompressedVideo (Web.state w)
      = match List.last (map Some (Web.outputs (Web.log w))) None with
        | Some n =>
            Some ({| Web.blobSize := n; Web.blobType := Protocol.mimeType page |},
                  Some (Web.baseName (Web.name f) +:+ "." +:+ Web.videoOutputFormat page))
        | None => VideoPage.downloadCompressedVideo s
        end)
  /\ (forall (fileType : string) (f : Web.File) (s : Web.VideoState),
        VideoPage.downloadCompressedVideo (fst (VideoPage.handleVideoFile fileType f s))
        = VideoPage.downloadCompressedVideo s)
  /\ (forall s : Web.VideoState,
        VideoPage.downloadCompressedVideo (fst (VideoPage.clearVideo s)) = None).
Proof.
  split; [ | split].
  - intros page s f Hf Hc w.
    destruct (run_report page s f Hf Hc) as (_ & _ & _ & _ & Hb & Hn & _).
    fold w in Hb, Hn. unfold VideoPage.downloadCompressedVideo.
    rewrite Hb, Hn. unfold Protocol.blobAfter, Protocol.nameAfter.
    destruct (Web.outputs (Web.log w)) as [ | n l]; [reflexivity | ].
    destruct (last_of_some n l) as [x ->]. reflexivity.
  - intros fileType f s. unfold VideoPage.handleVideoFile.
    now destruct (_ && _).
  - reflexivity.
Qed.

Lemma download_is_last_output_witness :
  let second := {| Web.name := "second.mov"; Web.size := 10 * Scenario.MB |} in
  let s := fst (VideoPage.handleVideoFile "video/quicktime" second Sample.withOldOutput) in
  Web.file s = Some second
  /\ VideoPage.downloadCompressedVideo
       (Web.state (Web.startVideoCompression (Scenario.pageD "mp4") s))
     = Some ({| Web.blobSize := 15 * Scenario.MB; Web.blobType := "video/mp4" |},
             Some "first.mp4").
Proof.
  intros second s. split; [reflexivity | ].
  refine (eq_trans (proj1 download_is_last_output (Scenario.pageD "mp4") s second
                      eq_refl eq_refl) _).
  vm_compute. reflexivity.
Defined.

(** X16.  When no engine is held and either an earlier request is still
    loading it or it cannot be loaded, the run makes no call to the engine
    and ends with exactly one error toast ("FFmpeg not available" in the
    first case, the load failure in the second), no success notice, no
    engine held and the loading flag as it was. *)
Theorem engine_unavailable (page : Web.Page) (s : Web.VideoState) (f : Web.File) :
  Web.file s = Some f -> Web.isCompressing s = false -> Web.ffmpeg s = false ->
  Web.isLoading s = true \/ Web.engineLoads page = false ->
  let w := Web.startVideoCompression page s in
  Web.calls w = 0%nat
  /\ Web.ffmpeg (Web.state w) = false
  /\ Web.isLoading (Web.state w) = Web.isLoading s
  /\ Protocol.count Protocol.isErrorToast (Web.log w) = 1%nat
  /\ In (Web.ShowToast
           (if Web.isLoading s then "FFmpeg not available"
            else "Failed to load video engine. Please use a modern browser (Chrome, Edge, or Firefox).")
           "error") (Web.log w)
  /\ Web.shows Web.isSuccessToast (Web.log w) = false.
Proof.
  intros Hf Hc Hff Hno w. unfold w, Web.startVideoCompression. rewrite Hf, Hc.
  expose. run. rewrite Hff. run.
  destruct (Web.isLoading s) eqn:Hl; run.
  - repeat split; try reflexivity; try assumption. right. left. reflexivity.
  - destruct Hno as [Hno | Hno]; [discriminate Hno | ]. rewrite Hno. run.
    repeat split; try reflexivity; try assumption. right. right. left. reflexivity.
Qed.

Lemma engine_unavailable_witness :
  Web.calls (Web.startVideoCompression (Scenario.pageD "mp4") Sample.loading) = 0%nat
  /\ Web.calls (Web.startVideoCompression Scenario.pageNoEngine
                  (Scenario.selectedNoEngine (50 * Scenario.MB))) = 0%nat.
Proof.
  split.
  - exact (proj1 (engine_unavailable (Scenario.pageD "mp4") Sample.loading _
                    eq_refl eq_refl eq_refl (or_introl eq_refl))).
  - exact (proj1 (engine_unavailable Scenario.pageNoEngine
                    (Scenario.selectedNoEngine (50 * Scenario.MB)) _
                    eq_refl eq_refl eq_refl (or_intror eq_refl))).
Defined.



Section Progress.

Local Open Scope Q_scope.

(** X18.  The progress handlers never show 100%: the browser's percentage
    is at most 99 (exactly 99 from a progress of 0.985 on, and not negative
    for a progress that is not), the desktop's is at most 99 and 0 when the
    percentage is missing.  The time left is never negative, so it is always
    printed as a time.  A progress event changes nothing when no run is in
    progress: after a click on Cancel, and after a run has ended. *)
Theorem progress_display :
  (forall progress : Q,
      (VideoPage.percentOf progress <= 99)%Z
      /\ (0 <= progress -> (0 <= VideoPage.percentOf progress)%Z)
      /\ (985 # 1000 <= progress -> VideoPage.percentOf progress = 99%Z))
  /\ (forall (percent : option Q),
        (VideoPage.desktopPercent percent <= 99)%Z
        /\ VideoPage.desktopPercent None = 0%Z)
  /\ (forall (progress : Q) (dateNow startTime : Z),
        0 <= VideoPage.remaining progress dateNow startTime
        /\ VideoPage.timeParts (VideoPage.remaining progress dateNow startTime) <> None)
  /\ (forall (progress : Q) (dateNow : Z) (s : Web.VideoState),
        Web.isCompressing s = false -> VideoPage.onProgress progress dateNow s = [])
  /\ (forall (progress : Q) (dateNow : Z) (s : Web.VideoState),
        Web.ffmpeg s = true ->
        VideoPage.onProgress progress dateNow (fst (Web.cancelVideoCompression s)) = [])
  /\ (forall (progress : Q) (dateNow : Z) (page : Web.Page) (s : Web.VideoState)
        (f : Web.File),
        Web.file s = Some f -> Web.isCompressing s = false ->
        VideoPage.onProgress progress dateNow
          (Web.state (Web.startVideoCompression page s)) = []).
Proof.
  assert (Hidle : forall progress dateNow s,
             Web.isCompressing s = false -> VideoPage.onProgress progress dateNow s = []).
  { intros progress dateNow s H. unfold VideoPage.onProgress. rewrite H.
    now destruct (Web.startTime s). }
  split; [ | split; [ | split; [ | split; [ | split ] ] ] ].
  - intros progress. unfold VideoPage.percentOf, Js.min. split; [lia | ]. split.
    + intros H. apply Z.min_glb; [ | lia]. apply round_nonneg.
      apply Qmult_le_0_compat; [exact H | discriminate].
    + intros H. apply Z.min_r. unfold VideoPage.round, Js.floor.
      change 99%Z with (Qfloor (inject_Z 99)). apply Qfloor_resp_le.
      apply Qle_trans with ((985 # 1000) * inject_Z 100 + (1 # 2)); [discriminate | ].
      apply Qplus_le_compat; [ | apply Qle_refl].
      apply Qmult_le_compat_r; [exact H | discriminate].
  - intros percent. unfold VideoPage.desktopPercent, Js.min. split; [lia | reflexivity].
  - intros progress dateNow startTime.
    assert (H : 0 <= VideoPage.remaining progress dateNow startTime)
      by (unfold VideoPage.remaining; apply maxQ_lower).
    split; [exact H | ]. unfold VideoPage.timeParts.
    now rewrite (proj2 (Qle_bool_iff _ _) H).
  - exact Hidle.
  - intros progress dateNow s Hff. apply Hidle. unfold Web.cancelVideoCompression.
    rewrite Hff. now destruct (Web.isCompressing s) eqn:Hc.
  - intros progress dateNow page s f Hf Hc. apply Hidle.
    now apply (finally_runs page s f).
Qed.

Lemma progress_display_witness :
  VideoPage.percentOf 1 = 99%Z
  /\ VideoPage.onProgress (1 # 2) 61000
       (Web.state (Web.startVideoCompression (Scenario.pageD "mp4")
                     (Scenario.selected (50 * Scenario.MB)))) = [].
Proof.
  split.
  - apply (proj1 progress_display 1). discriminate.
  - exact (proj2 (proj2 (proj2 (proj2 (proj2 progress_display)))) (1 # 2) 61000%Z
             (Scenario.pageD "mp4") (Scenario.selected (50 * Scenario.MB)) _
             eq_refl eq_refl).
Defined.

End Progress.
